(** * Todo: ownership, filtering and completion toggling of the task views

    A shallow embedding of [main_app/views.py] and [main_app/forms.py].
    The two tables are finite maps from primary key to row, a queryset is
    the sub-map of the rows it selects, and a view is a computation over
    the stored state that either raises or answers with a response. *)

From Stdlib Require Import ZArith.
From stdpp Require Import base option gmap strings fin_maps.

Local Open Scope Z_scope.
Local Open Scope string_scope.

(** ** The data model *)

Record date := mkDate { year : Z; month : Z; day : Z }.

(** Modelled from the spec: [models.py] is not among the sources.  A
    Category has a name and an owning user; the primary key is the key of
    the table. *)
Record Category := mkCategory {
  category_name : string;
  category_user : Z
}.

(** Modelled from the spec: [models.py] is not among the sources.  A Task
    has a title, a description, an optional due date, a priority, an
    optional reference to a Category, the completion flag and the owning
    user.  These are also the columns [admin.py] lists. *)
Record Task := mkTask {
  title : string;
  description : string;
  due_date : option date;
  priority : string;
  category : option Z;
  completed : bool;
  user : Z
}.

(** What the missing model declaration decides about the fields: how a
    submitted text becomes a primary key ([None] when the conversion
    raises [ValueError]) and which submitted values each plain form field
    accepts ([None] when the field raises [ValidationError]).  The empty
    text is no number. *)
Class ModelFields := {
  to_pk : string → option Z;
  to_pk_empty : to_pk "" = None;
  clean_title : option string → option string;
  clean_description : option string → option string;
  clean_due_date : option string → option (option date);
  clean_priority : option string → option string
}.

(** ** Requests, responses and the stored state *)

Inductive Method := GET_method | POST_method.

Record HttpRequest := mkRequest {
  method : Method;
  request_user : option Z;          (* [None] is the anonymous user *)
  GET : gmap string string;
  POST : gmap string string
}.

Inductive Context :=
| ctx_profile (total_tasks completed_tasks pending_tasks : Z)
| ctx_task_list (tasks : gmap Z Task) (categories : gmap Z Category)
| ctx_object (pk : Z) (object : Task)
| ctx_form (object : option (Z * Task)) (errors : list string).

Inductive HttpResponse :=
| render (template_name : string) (context : Context)
| redirect (to : string).

Inductive Exn := Http404 | PermissionDenied | ValueError.

Record World := mkWorld {
  Task_objects : gmap Z Task;
  Category_objects : gmap Z Category;
  messages : list string
}.

(** A view threads the stored state and may raise. *)
Definition M (A : Type) : Type := World → (Exn + A) * World.

Definition ret {A} (a : A) : M A := λ w, (inr a, w).
Definition raise {A} (e : Exn) : M A := λ w, (inl e, w).
Definition bind {A B} (c : M A) (k : A → M B) : M B :=
  λ w, match c w with
       | (inr a, w') => k a w'
       | (inl e, w') => (inl e, w')
       end.
Definition get_world : M World := λ w, (inr w, w).

Notation "'let!' x := c 'in' k" := (bind c (λ x, k))
  (at level 10, x name, c at level 100, k at level 200, only parsing).
Notation "'run' c 'then' k" := (bind c (λ _, k))
  (at level 10, c at level 100, k at level 200, only parsing).

(** Python truth value of a [str]. *)
Definition truthy (s : string) : bool := negb (String.eqb s "").

(** ** Querysets *)

Definition objects_filter_user (objects : gmap Z Task) (u : Z) : gmap Z Task :=
  filter (λ kt, user kt.2 = u) objects.

Definition filter_completed (b : bool) (queryset : gmap Z Task) : gmap Z Task :=
  filter (λ kt, completed kt.2 = b) queryset.

Definition Category_filter_user (objects : gmap Z Category) (u : Z)
  : gmap Z Category :=
  filter (λ kc, category_user kc.2 = u) objects.

Section Views.
Context `{ModelFields}.

(** [queryset.filter(category__id=category_id)]: the lookup value is
    converted to a key first, which raises on text that is not a number. *)
Definition filter_category_id (queryset : gmap Z Task) (category_id : string)
  : Exn + gmap Z Task :=
  match to_pk category_id with
  | Some k => inr (filter (λ kt, category kt.2 = Some k) queryset)
  | None => inl ValueError
  end.

(** [TaskListView.get_queryset] *)
Definition get_queryset (objects : gmap Z Task) (u : Z)
    (params : gmap string string) : Exn + gmap Z Task :=
  let queryset := objects_filter_user objects u in
  let filtered :=
    match params !! "category" with
    | Some category_id =>
        if truthy category_id then filter_category_id queryset category_id
        else inr queryset
    | None => inr queryset
    end in
  match filtered with
  | inl e => inl e
  | inr queryset =>
      let status := params !! "status" in
      if decide (status = Some "completed") then
        inr (filter_completed true queryset)
      else if decide (status = Some "pending") then
        inr (filter_completed false queryset)
      else inr queryset
  end.

(** The list narrowed by owner and by the category parameter alone, as
    the specification words the result of a request without a status. *)
Definition owner_and_category (objects : gmap Z Task) (u : Z)
    (category_id : option string) : Exn + gmap Z Task :=
  match category_id with
  | Some id =>
      if truthy id then filter_category_id (objects_filter_user objects u) id
      else inr (objects_filter_user objects u)
  | None => inr (objects_filter_user objects u)
  end.

(** ** Access control *)

(** [login_required] and [LoginRequiredMixin.dispatch]: an anonymous
    request is sent to the login page, the view is not run. *)
Definition login_required (view : Z → M HttpResponse) (request : HttpRequest)
  : M HttpResponse :=
  match request_user request with
  | Some u => view u
  | None => ret (redirect "login")
  end.

(** [SingleObjectMixin.get_object]: the row of the model with this key. *)
Definition get_object (pk : Z) : M Task :=
  let! w := get_world in
  match Task_objects w !! pk with
  | Some task => ret task
  | None => raise Http404
  end.

(** [get_object_or_404(Task, pk=pk, user=u)]: one lookup with both
    conditions. *)
Definition get_object_or_404 (pk u : Z) : M Task :=
  let! w := get_world in
  match objects_filter_user (Task_objects w) u !! pk with
  | Some task => ret task
  | None => raise Http404
  end.

(** [test_func] of the detail, update and delete views. *)
Definition test_func (u pk : Z) : M bool :=
  let! task := get_object pk in
  ret (bool_decide (user task = u)).

(** [UserPassesTestMixin.dispatch], reached by a logged-in user. *)
Definition UserPassesTestMixin (test : M bool) (handler : M HttpResponse)
  : M HttpResponse :=
  let! user_test_result := test in
  if user_test_result then handler else raise PermissionDenied.

(** ** Writes *)

Definition messages_success (msg : string) : M unit :=
  λ w, (inr tt, mkWorld (Task_objects w) (Category_objects w) (messages w ++ [msg])).

(** [task.save()] of a row that has a key. *)
Definition Task_save (pk : Z) (task : Task) : M unit :=
  λ w, (inr tt, mkWorld (<[pk := task]> (Task_objects w)) (Category_objects w) (messages w)).

(** [task.delete()] *)
Definition Task_delete (pk : Z) : M unit :=
  λ w, (inr tt, mkWorld (delete pk (Task_objects w)) (Category_objects w) (messages w)).

(** The key an insertion assigns: one past the largest key in use. *)
Definition next_pk {A} (objects : gmap Z A) : Z :=
  1 + map_fold (λ k _ acc, Z.max k acc) 0 objects.

(** [task.save()] of a row that has no key yet; answers the new key. *)
Definition Task_insert (task : Task) : M Z :=
  λ w, let pk := next_pk (Task_objects w) in
       (inr pk, mkWorld (<[pk := task]> (Task_objects w)) (Category_objects w) (messages w)).

Definition set_completed (b : bool) (task : Task) : Task :=
  mkTask (title task) (description task) (due_date task) (priority task)
         (category task) b (user task).

(** ** TaskForm *)

(** [TaskForm.Meta.fields] *)
Definition TaskForm_fields : list string :=
  ["title"; "description"; "due_date"; "priority"; "category"].

(** [TaskForm.__init__]: the queryset of the category field. *)
Definition TaskForm_category_queryset (user_kwarg : option Z)
    (objects : gmap Z Category) : gmap Z Category :=
  match user_kwarg with
  | Some u => Category_filter_user objects u
  | None => objects
  end.

(** Cleaning of the category field, a model choice over [queryset]: an
    empty value is no category, any other value has to be the key of a
    row of the queryset.  Modelled from the spec: the field is optional. *)
Definition clean_category (queryset : gmap Z Category) (value : option string)
  : option (option Z) :=
  match value with
  | None => Some None
  | Some s =>
      if truthy s then
        match to_pk s with
        | Some k =>
            match queryset !! k with
            | Some _ => Some (Some k)
            | None => None
            end
        | None => None
        end
      else Some None
  end.

(** The outcome of cleaning each field of the form; [None] is a
    [ValidationError] on that field. *)
Record TaskForm := mkTaskForm {
  f_title : option string;
  f_description : option string;
  f_due_date : option (option date);
  f_priority : option string;
  f_category : option (option Z)
}.

Definition TaskForm_bind (user_kwarg : option Z) (objects : gmap Z Category)
    (data : gmap string string) : TaskForm :=
  mkTaskForm (clean_title (data !! "title"))
             (clean_description (data !! "description"))
             (clean_due_date (data !! "due_date"))
             (clean_priority (data !! "priority"))
             (clean_category (TaskForm_category_queryset user_kwarg objects)
                             (data !! "category")).

Definition field_error {A} (name : string) (cleaned : option A) : list string :=
  match cleaned with
  | Some _ => []
  | None => [name]
  end.

Definition errors (form : TaskForm) : list string :=
  field_error "title" (f_title form) ++
  field_error "description" (f_description form) ++
  field_error "due_date" (f_due_date form) ++
  field_error "priority" (f_priority form) ++
  field_error "category" (f_category form).

Definition is_valid (form : TaskForm) : bool := bool_decide (errors form = []).

(** [construct_instance]: every field that cleaned is written to the
    instance; [completed] and [user] are no fields of the form. *)
Definition construct_instance (form : TaskForm) (instance : Task) : Task :=
  mkTask (default (title instance) (f_title form))
         (default (description instance) (f_description form))
         (default (due_date instance) (f_due_date form))
         (default (priority instance) (f_priority form))
         (default (category instance) (f_category form))
         (completed instance)
         (user instance).

(** The unsaved instance of the create view after
    [form.instance.user = self.request.user]. *)
Definition new_instance (u : Z) : Task := mkTask "" "" None "" None false u.

(** ** The views *)

(** [profile] *)
Definition profile : HttpRequest → M HttpResponse :=
  login_required (λ u,
    let! w := get_world in
    let tasks := objects_filter_user (Task_objects w) u in
    let total_tasks := Z.of_nat (size tasks) in
    let completed_tasks := Z.of_nat (size (filter_completed true tasks)) in
    let pending_tasks := total_tasks - completed_tasks in
    ret (render "registration/profile.html"
                (ctx_profile total_tasks completed_tasks pending_tasks))).

(** [TaskListView], a GET request: [get_queryset], then
    [get_context_data]. *)
Definition TaskListView (request : HttpRequest) : M HttpResponse :=
  login_required (λ u,
    let! w := get_world in
    match get_queryset (Task_objects w) u (GET request) with
    | inl e => raise e
    | inr queryset =>
        ret (render "todo_app/task_list.html"
               (ctx_task_list queryset
                  (Category_filter_user (Category_objects w) u)))
    end) request.

(** [TaskDetailView], a GET request. *)
Definition TaskDetailView (request : HttpRequest) (pk : Z) : M HttpResponse :=
  login_required (λ u,
    UserPassesTestMixin (test_func u pk)
      (let! object := get_object pk in
       ret (render "todo_app/task_detail.html" (ctx_object pk object))))
    request.

(** [TaskCreateView], a POST request: the form is built with
    [get_form_kwargs], and [form_valid] runs when it is valid. *)
Definition TaskCreateView (request : HttpRequest) : M HttpResponse :=
  login_required (λ u,
    let! w := get_world in
    let form := TaskForm_bind (Some u) (Category_objects w) (POST request) in
    if is_valid form then
      let instance := construct_instance form (new_instance u) in
      run messages_success "Task created successfully!" then
      let! pk := Task_insert instance in
      ret (redirect "task-list")
    else
      ret (render "todo_app/task_form.html" (ctx_form None (errors form))))
    request.

(** [TaskUpdateView], a POST request.  The form is bound to the stored
    row; the page of an invalid form shows the instance as the form left
    it, which is not saved. *)
Definition TaskUpdateView (request : HttpRequest) (pk : Z) : M HttpResponse :=
  login_required (λ u,
    UserPassesTestMixin (test_func u pk)
      (let! object := get_object pk in
       let! w := get_world in
       let form := TaskForm_bind (Some u) (Category_objects w) (POST request) in
       let instance := construct_instance form object in
       if is_valid form then
         run messages_success "Task updated successfully!" then
         run Task_save pk instance then
         ret (redirect "task-list")
       else
         ret (render "todo_app/task_form.html"
                (ctx_form (Some (pk, instance)) (errors form)))))
    request.

(** [TaskDeleteView], a POST request, served by [delete]. *)
Definition TaskDeleteView (request : HttpRequest) (pk : Z) : M HttpResponse :=
  login_required (λ u,
    UserPassesTestMixin (test_func u pk)
      (run messages_success "Task deleted successfully!" then
       let! object := get_object pk in
       run Task_delete pk then
       ret (redirect "task-list")))
    request.

(** [toggle_task_completion] *)
Definition toggle_task_completion (request : HttpRequest) (pk : Z)
  : M HttpResponse :=
  login_required (λ u,
    let! task := get_object_or_404 pk u in
    let task := set_completed (negb (completed task)) task in
    run Task_save pk task then
    ret (redirect "task-list"))
    request.

End Views.

(** The request with other submitted data. *)
Definition with_POST (request : HttpRequest) (data : gmap string string)
  : HttpRequest :=
  mkRequest (method request) (request_user request) (GET request) data.

(** ** A concrete choice of fields

    Keys written in decimal digits, a required title, an optional
    description, no due date unless left empty, and any priority. *)

Fixpoint digits (s : string) (acc : Z) : option Z :=
  match s with
  | EmptyString => Some acc
  | String c rest =>
      let n := Z.of_N (Ascii.N_of_ascii c) in
      if ((48 <=? n)%Z && (n <=? 57)%Z)%bool then digits rest (10 * acc + (n - 48))
      else None
  end.

Definition decimal_pk (s : string) : option Z :=
  if truthy s then digits s 0 else None.

Definition required_text (value : option string) : option string :=
  match value with
  | Some s => if truthy s then Some s else None
  | None => None
  end.

Definition optional_text (value : option string) : option string :=
  Some (default "" value).

Definition empty_date (value : option string) : option (option date) :=
  match value with
  | Some s => if truthy s then None else Some None
  | None => Some None
  end.

#[export] Instance sample_fields : ModelFields := {|
  to_pk := decimal_pk;
  to_pk_empty := eq_refl;
  clean_title := required_text;
  clean_description := optional_text;
  clean_due_date := empty_date;
  clean_priority := required_text
|}.

(** Two users, a category of each, two tasks of the first user and one
    of the second. *)
Definition alice : Z := 1.
Definition bob : Z := 2.

Definition report : Task :=
  mkTask "Write report" "" None "high" (Some 1) false alice.
Definition groceries : Task :=
  mkTask "Buy milk" "" None "low" None true alice.
Definition laundry : Task :=
  mkTask "Laundry" "" None "low" (Some 2) false bob.

Definition sample_world : World :=
  mkWorld (<[1 := report]> (<[2 := groceries]> (<[3 := laundry]> ∅)))
          (<[1 := mkCategory "Work" alice]> (<[2 := mkCategory "Home" bob]> ∅))
          [].

Definition request_of (u : Z) (get post : list (string * string)) : HttpRequest :=
  mkRequest POST_method (Some u) (list_to_map get) (list_to_map post).

(** A request without parameters. *)
Definition plain_request (u : Z) : HttpRequest := request_of u [] [].

(** List parameters that name a status only. *)
Definition status_params (status : string) : gmap string string :=
  list_to_map [("status", status)].

(** The sample state after task 1 is completed. *)
Definition report_done_world : World :=
  mkWorld (<[1 := set_completed true report]> (Task_objects sample_world))
          (Category_objects sample_world) [].

(** The owner of task 1 submits the category of the other user. *)
Definition foreign_category_update : HttpRequest :=
  request_of alice []
    [("title", "Write report"); ("priority", "high"); ("category", "2")].

(** A new task submitted together with an owner. *)
Definition create_with_owner : HttpRequest :=
  request_of bob []
    [("title", "Call home"); ("priority", "low"); ("user", "1")].

(** A new task submitted with the category of the other user. *)
Definition foreign_category_create : HttpRequest :=
  request_of alice []
    [("title", "Tidy up"); ("priority", "low"); ("category", "2")].

(** ** Categories *)

(** What the missing model declaration decides about the name of a
    category: which submitted values the field accepts. *)
Class CategoryFields := {
  clean_name : option string → option string
}.

(** [category.save()] of a row that has no key yet; answers the new key. *)
Definition Category_insert (category : Category) : M Z :=
  λ w, let pk := next_pk (Category_objects w) in
       (inr pk, mkWorld (Task_objects w) (<[pk := category]> (Category_objects w)) (messages w)).

(** [category_create]: a POST request binds [CategoryForm], whose one
    field is the name; any other request gets the empty form. *)
Definition category_create `{CategoryFields} (request : HttpRequest)
  : M HttpResponse :=
  login_required (λ u,
    match method request with
    | POST_method =>
        match clean_name (POST request !! "name") with
        | Some name =>
            let category := mkCategory name u in
            let! pk := Category_insert category in
            run messages_success "Category created successfully!" then
            ret (redirect "task-list")
        | None =>
            ret (render "todo_app/category_form.html" (ctx_form None ["name"]))
        end
    | GET_method =>
        ret (render "todo_app/category_form.html" (ctx_form None []))
    end) request.

#[export] Instance sample_category_fields : CategoryFields := {|
  clean_name := required_text
|}.

(** Every stored task that has a category refers to a stored category of
    its own owner. *)
Definition category_of_owner (w : World) : Prop :=
  ∀ pk t k, Task_objects w !! pk = Some t → category t = Some k →
    ∃ c, Category_objects w !! k = Some c ∧ category_user c = user t.

(** A request of nobody logged in. *)
Definition anonymous_request : HttpRequest := mkRequest POST_method None ∅ ∅.

(** A request of [u] with the given method. *)
Definition request_with (m : Method) (u : Z) (get post : list (string * string))
  : HttpRequest :=
  mkRequest m (Some u) (list_to_map get) (list_to_map post).

(** List parameters that name category 1 and the status "pending". *)
Definition work_pending_params : gmap string string :=
  list_to_map [("category", "1"); ("status", "pending")].

(** A list request whose category is no number. *)
Definition bad_category_request : HttpRequest :=
  request_of alice [("category", "work")] [].

(** A valid update of the title, submitted with a completion flag. *)
Definition retitle_request : HttpRequest :=
  request_of alice []
    [("title", "Write summary"); ("priority", "high"); ("category", "1")].

(** A new category submitted together with an owner. *)
Definition errands_request : HttpRequest :=
  request_with POST_method alice [] [("name", "Errands"); ("user", "2")].

(** The sample state after [create_with_owner]. *)
Definition call_home : Task := mkTask "Call home" "" None "low" None false bob.

Definition called_world : World :=
  mkWorld (<[4 := call_home]> (Task_objects sample_world))
          (Category_objects sample_world)
          ["Task created successfully!"].

(** The sample state after [errands_request]. *)
Definition errands_world : World :=
  mkWorld (Task_objects sample_world)
          (<[3 := mkCategory "Errands" alice]> (Category_objects sample_world))
          ["Category created successfully!"].

(** * Properties *)

(** ** Querysets *)

Lemma lookup_objects_filter_user objects u pk t :
  objects_filter_user objects u !! pk = Some t ↔
  objects !! pk = Some t ∧ user t = u.
Proof. unfold objects_filter_user. by rewrite map_lookup_filter_Some. Qed.

Lemma lookup_filter_completed b queryset pk t :
  filter_completed b queryset !! pk = Some t ↔
  queryset !! pk = Some t ∧ completed t = b.
Proof. unfold filter_completed. by rewrite map_lookup_filter_Some. Qed.

Lemma filter_completed_union queryset :
  filter_completed true queryset ∪ filter_completed false queryset = queryset.
Proof.
  apply map_eq; intros pk. apply option_eq; intros t.
  rewrite lookup_union_Some_raw, !lookup_filter_completed. split.
  - intros [[Ht _] | [_ [Ht _]]]; exact Ht.
  - intros Ht. destruct (completed t) eqn:Hc; [by left | right].
    split; [| done]. apply eq_None_not_Some. intros [t' Ht'].
    apply lookup_filter_completed in Ht' as [Ht' Hc']. congruence.
Qed.

Lemma filter_completed_disjoint queryset :
  filter_completed true queryset ##ₘ filter_completed false queryset.
Proof.
  apply map_disjoint_spec. intros pk t t'.
  rewrite !lookup_filter_completed. intros [Ht Hc] [Ht' Hc']. congruence.
Qed.

Lemma size_filter_completed queryset :
  size queryset =
  (size (filter_completed true queryset) + size (filter_completed false queryset))%nat.
Proof.
  rewrite <- (filter_completed_union queryset) at 1.
  apply map_size_disj_union, filter_completed_disjoint.
Qed.

Lemma filter_completed_of_user b objects u :
  filter_completed b (objects_filter_user objects u) =
  filter (λ kt, user kt.2 = u ∧ completed kt.2 = b) objects.
Proof.
  unfold filter_completed, objects_filter_user. rewrite map_filter_filter.
  apply map_filter_ext. intros pk t _. simpl. tauto.
Qed.

(** ** Keys of new rows *)

Lemma next_pk_above {A} (objects : gmap Z A) pk :
  is_Some (objects !! pk) → pk < next_pk objects.
Proof.
  unfold next_pk. revert pk.
  apply (map_fold_weak_ind
           (λ r (m : gmap Z A), ∀ pk, is_Some (m !! pk) → pk < 1 + r)).
  - intros pk [a Ha]. by rewrite lookup_empty in Ha.
  - intros i a m r _ IH pk Hpk. destruct (decide (i = pk)) as [->|Hne].
    + lia.
    + rewrite lookup_insert_ne in Hpk by done. specialize (IH pk Hpk). lia.
Qed.

Lemma next_pk_fresh {A} (objects : gmap Z A) : objects !! next_pk objects = None.
Proof.
  apply eq_None_not_Some. intros Hsome.
  apply next_pk_above in Hsome. lia.
Qed.

(** ** Records *)

Lemma set_completed_twice (task : Task) :
  set_completed (negb (completed (set_completed (negb (completed task)) task)))
                (set_completed (negb (completed task)) task) = task.
Proof. destruct task as [? ? ? ? ? c ?]. unfold set_completed. simpl. by destruct c. Qed.

Ltac run_view :=
  unfold login_required, UserPassesTestMixin, test_func, get_object,
    get_object_or_404, bind, get_world, ret, raise, messages_success,
    Task_save, Task_delete, Task_insert; simpl.

Section Properties.
Context `{ModelFields}.

Lemma toggle_found request u pk t w :
  request_user request = Some u →
  Task_objects w !! pk = Some t →
  user t = u →
  toggle_task_completion request pk w =
    (inr (redirect "task-list"),
     mkWorld (<[pk := set_completed (negb (completed t)) t]> (Task_objects w))
             (Category_objects w) (messages w)).
Proof.
  intros Hu Ht Hown. unfold toggle_task_completion. run_view. rewrite Hu.
  by rewrite (proj2 (lookup_objects_filter_user _ _ _ _) (conj Ht Hown)).
Qed.

Lemma toggle_not_found request u pk w :
  request_user request = Some u →
  objects_filter_user (Task_objects w) u !! pk = None →
  toggle_task_completion request pk w = (inl Http404, w).
Proof.
  intros Hu Hnone. unfold toggle_task_completion. run_view.
  by rewrite Hu, Hnone.
Qed.

Lemma get_queryset_status objects u params :
  get_queryset objects u params =
  match owner_and_category objects u (params !! "category") with
  | inl e => inl e
  | inr queryset =>
      if decide (params !! "status" = Some "completed") then
        inr (filter_completed true queryset)
      else if decide (params !! "status" = Some "pending") then
        inr (filter_completed false queryset)
      else inr queryset
  end.
Proof.
  unfold get_queryset, owner_and_category.
  destruct (params !! "category") as [id|]; [destruct (truthy id) |]; done.
Qed.

Lemma owner_and_category_lookup objects u category_id queryset pk t :
  owner_and_category objects u category_id = inr queryset →
  queryset !! pk = Some t → objects !! pk = Some t ∧ user t = u.
Proof.
  unfold owner_and_category, filter_category_id. intros Hq Ht.
  apply lookup_objects_filter_user.
  destruct category_id as [id|]; [destruct (truthy id) |]; simplify_eq; try done.
  destruct (to_pk id); simplify_eq.
  by apply map_lookup_filter_Some in Ht as [Ht _].
Qed.

(** C1. A list request of user [u] that names no category and no status
    answers with exactly the stored tasks whose owner is [u]; and whatever
    the parameters are, every task of a queryset the view computes is a
    stored task owned by [u]. *)
Theorem list_ownership_isolation (request : HttpRequest) (u : Z) (w : World) :
  request_user request = Some u →
  GET request !! "category" = None →
  GET request !! "status" = None →
  (∃ queryset categories,
      TaskListView request w =
        (inr (render "todo_app/task_list.html"
                     (ctx_task_list queryset categories)), w) ∧
      ∀ pk t, queryset !! pk = Some t ↔
              Task_objects w !! pk = Some t ∧ user t = u) ∧
  (∀ params queryset pk t,
      get_queryset (Task_objects w) u params = inr queryset →
      queryset !! pk = Some t →
      Task_objects w !! pk = Some t ∧ user t = u).
Proof.
  intros Hu Hcat Hstatus. split.
  - exists (objects_filter_user (Task_objects w) u),
           (Category_filter_user (Category_objects w) u).
    split; [| intros; apply lookup_objects_filter_user].
    unfold TaskListView, login_required. rewrite Hu.
    unfold bind, get_world, get_queryset. by rewrite Hcat, Hstatus.
  - intros params queryset pk t. rewrite get_queryset_status.
    destruct (owner_and_category _ _ _) as [e|base] eqn:Hbase; [done |].
    intros Hq Ht. apply (owner_and_category_lookup _ _ _ _ _ _ Hbase).
    repeat case_decide; simplify_eq; try done;
      by apply lookup_filter_completed in Ht as [Ht _].
Qed.

(** C4. With status "completed" every task of the result is completed,
    with status "pending" none is, and with any other status or none the
    result is the list narrowed by owner and category alone. *)
Theorem status_filter_narrowing (objects : gmap Z Task) (u : Z)
    (params : gmap string string) :
  (params !! "status" = Some "completed" →
     ∀ queryset pk t, get_queryset objects u params = inr queryset →
       queryset !! pk = Some t → completed t = true) ∧
  (params !! "status" = Some "pending" →
     ∀ queryset pk t, get_queryset objects u params = inr queryset →
       queryset !! pk = Some t → completed t = false) ∧
  (params !! "status" ≠ Some "completed" →
   params !! "status" ≠ Some "pending" →
     get_queryset objects u params =
     owner_and_category objects u (params !! "category")).
Proof.
  rewrite get_queryset_status.
  destruct (owner_and_category _ _ _) as [e|base]; repeat split;
    intros; repeat case_decide; simplify_eq; try done;
    match goal with
    | Ht : filter_completed _ _ !! _ = Some _ |- _ =>
        by apply lookup_filter_completed in Ht as [_ Ht]
    end.
Qed.

(** C5. For a fixed user and fixed other parameters, the results for
    status "completed" and for status "pending" are disjoint, and their
    union is the result without a status; the three requests raise
    together or not at all. *)
Theorem status_filters_partition (objects : gmap Z Task) (u : Z)
    (params : gmap string string) :
  match get_queryset objects u (delete "status" params) with
  | inr everything =>
      ∃ done_ pending_,
        get_queryset objects u (<["status" := "completed"]> params) = inr done_ ∧
        get_queryset objects u (<["status" := "pending"]> params) = inr pending_ ∧
        done_ ∪ pending_ = everything ∧
        done_ ##ₘ pending_ ∧
        (∀ pk t, everything !! pk = Some t ↔
                 done_ !! pk = Some t ∨ pending_ !! pk = Some t) ∧
        (∀ pk, ¬ (is_Some (done_ !! pk) ∧ is_Some (pending_ !! pk)))
  | inl e =>
      get_queryset objects u (<["status" := "completed"]> params) = inl e ∧
      get_queryset objects u (<["status" := "pending"]> params) = inl e
  end.
Proof.
  rewrite !get_queryset_status.
  rewrite (lookup_insert_ne params "status" "category") by done.
  rewrite (lookup_insert_ne params "status" "category") by done.
  rewrite (lookup_delete_ne params "status" "category") by done.
  rewrite lookup_delete_eq, !lookup_insert_eq.
  destruct (owner_and_category _ _ _) as [e|base]; repeat case_decide; try done.
  exists (filter_completed true base), (filter_completed false base).
  pose proof (filter_completed_union base) as Hunion.
  pose proof (filter_completed_disjoint base) as Hdisj.
  repeat split; try done.
  - intros Ht. rewrite <- Hunion in Ht.
    apply lookup_union_Some in Ht; [done | apply Hdisj].
  - intros Ht. rewrite <- Hunion. apply lookup_union_Some; [apply Hdisj | done].
  - intros pk [[t Ht] [t' Ht']].
    by pose proof (proj1 (map_disjoint_spec _ _) Hdisj pk t t' Ht Ht').
Qed.

(** C3. Toggling looks the task up by key and owner at once.  A stored
    task of the acting user is saved with its flag negated; when the key
    is not stored, or stored for another user, the view raises Http404
    and the stored state is the one before. *)
Theorem toggle_single_lookup (request : HttpRequest) (u pk : Z) (w : World) :
  request_user request = Some u →
  (∀ t, Task_objects w !! pk = Some t → user t = u →
     toggle_task_completion request pk w =
       (inr (redirect "task-list"),
        mkWorld (<[pk := set_completed (negb (completed t)) t]> (Task_objects w))
                (Category_objects w) (messages w))) ∧
  ((Task_objects w !! pk = None ∨
    ∃ t, Task_objects w !! pk = Some t ∧ user t ≠ u) →
     toggle_task_completion request pk w = (inl Http404, w)).
Proof.
  intros Hu. split.
  - intros t Ht Hown. by apply (toggle_found _ u).
  - intros Hmiss. apply (toggle_not_found _ u); [done |].
    apply eq_None_not_Some. intros [t' Ht'].
    apply lookup_objects_filter_user in Ht' as [Ht' Hown].
    destruct Hmiss as [Hnone | (t & Ht & Hother)]; congruence.
Qed.

(** C6. Toggling a task of the acting user twice in a row gives the
    flag its first value back; the whole stored state is the first one
    again. *)
Theorem toggle_involution (request : HttpRequest) (u pk : Z) (t : Task)
    (w : World) :
  request_user request = Some u →
  Task_objects w !! pk = Some t →
  user t = u →
  ∃ w1 w2,
    toggle_task_completion request pk w = (inr (redirect "task-list"), w1) ∧
    toggle_task_completion request pk w1 = (inr (redirect "task-list"), w2) ∧
    completed <$> Task_objects w1 !! pk = Some (negb (completed t)) ∧
    completed <$> Task_objects w2 !! pk = Some (completed t) ∧
    w2 = w.
Proof.
  intros Hu Ht Hown.
  set (t1 := set_completed (negb (completed t)) t).
  set (w1 := mkWorld (<[pk := t1]> (Task_objects w)) (Category_objects w)
                     (messages w)).
  assert (Hw2 : mkWorld (<[pk := set_completed (negb (completed t1)) t1]>
                           (Task_objects w1))
                        (Category_objects w1) (messages w1) = w).
  { subst w1 t1. cbn [Task_objects Category_objects messages].
    rewrite set_completed_twice, insert_insert_eq.
    rewrite insert_id by done. by destruct w. }
  exists w1, w. repeat split.
  - by apply (toggle_found _ u).
  - rewrite (toggle_found request u pk t1 w1); [by rewrite Hw2 | done | | done].
    subst w1. simpl. apply lookup_insert_eq.
  - subst w1. simpl. by rewrite lookup_insert_eq.
  - by rewrite Ht.
Qed.

(** C9. When toggling answers with the redirect to the task list, the
    task under the key keeps its title, description, due date, priority,
    category and owner, every task under another key is the one stored
    before, and so is the table of categories. *)
Theorem toggle_frame (request : HttpRequest) (pk : Z) (w w' : World) :
  toggle_task_completion request pk w = (inr (redirect "task-list"), w') →
  ∃ t t',
    Task_objects w !! pk = Some t ∧
    Task_objects w' !! pk = Some t' ∧
    completed t' = negb (completed t) ∧
    title t' = title t ∧ description t' = description t ∧
    due_date t' = due_date t ∧ priority t' = priority t ∧
    category t' = category t ∧ user t' = user t ∧
    (∀ k, k ≠ pk → Task_objects w' !! k = Task_objects w !! k) ∧
    Category_objects w' = Category_objects w.
Proof.
  unfold toggle_task_completion. run_view.
  destruct (request_user request) as [u|]; [| intros; simplify_eq].
  destruct (objects_filter_user (Task_objects w) u !! pk) as [t|] eqn:Ht;
    [| intros; simplify_eq].
  apply lookup_objects_filter_user in Ht as [Ht _].
  intros Hrun. injection Hrun as <-.
  exists t, (set_completed (negb (completed t)) t). simpl.
  rewrite lookup_insert_eq. repeat split; try done.
  intros k Hk. by rewrite lookup_insert_ne.
Qed.

(** C10. The profile of a user shows the number of its tasks, the number
    of its completed tasks, and their difference as the pending count, so
    that total = completed + pending; the difference is the number of
    its tasks that are not completed. *)
Theorem profile_counts (request : HttpRequest) (u : Z) (w : World) :
  request_user request = Some u →
  ∃ total_tasks completed_tasks pending_tasks,
    profile request w =
      (inr (render "registration/profile.html"
              (ctx_profile total_tasks completed_tasks pending_tasks)), w) ∧
    total_tasks =
      Z.of_nat (size (filter (λ kt, user kt.2 = u) (Task_objects w))) ∧
    completed_tasks =
      Z.of_nat (size (filter (λ kt, user kt.2 = u ∧ completed kt.2 = true)
                             (Task_objects w))) ∧
    pending_tasks = total_tasks - completed_tasks ∧
    total_tasks = completed_tasks + pending_tasks ∧
    pending_tasks =
      Z.of_nat (size (filter (λ kt, user kt.2 = u ∧ completed kt.2 = false)
                             (Task_objects w))).
Proof.
  intros Hu. unfold profile. run_view. rewrite Hu.
  do 3 eexists. split; [reflexivity |].
  rewrite <- !filter_completed_of_user.
  pose proof (size_filter_completed (objects_filter_user (Task_objects w) u)).
  unfold objects_filter_user in *. repeat split; lia.
Qed.

(** ** The form *)

Lemma TaskForm_bind_other_key user_kwarg objects data key value :
  key ∉ TaskForm_fields →
  TaskForm_bind user_kwarg objects (<[key := value]> data) =
  TaskForm_bind user_kwarg objects data.
Proof.
  unfold TaskForm_fields. rewrite !not_elem_of_cons.
  intros (? & ? & ? & ? & ? & _).
  unfold TaskForm_bind. by rewrite !lookup_insert_ne.
Qed.

Lemma construct_instance_user form instance :
  user (construct_instance form instance) = user instance.
Proof. done. Qed.

Lemma clean_category_Some queryset value k :
  clean_category queryset value = Some (Some k) → is_Some (queryset !! k).
Proof.
  unfold clean_category. intros Hclean.
  destruct value as [s|]; [| done]. destruct (truthy s); [| done].
  destruct (to_pk s) as [k'|]; [| done].
  destruct (queryset !! k') eqn:Hk'; [| done]. simplify_eq. by rewrite Hk'.
Qed.

Lemma clean_category_foreign u objects s k c :
  to_pk s = Some k →
  objects !! k = Some c →
  category_user c ≠ u →
  clean_category (TaskForm_category_queryset (Some u) objects) (Some s) = None.
Proof.
  intros Hs Hk Hother. unfold clean_category, truthy.
  destruct (String.eqb_spec s "") as [-> | _]; simpl.
  - rewrite to_pk_empty in Hs. done.
  - rewrite Hs. unfold Category_filter_user.
    destruct (filter _ objects !! k) as [c'|] eqn:Hc'; [| done].
    apply map_lookup_filter_Some in Hc' as [Hc' Hown]. simpl in Hown.
    congruence.
Qed.

Lemma is_valid_errors form : is_valid form = false ↔ errors form ≠ [].
Proof. unfold is_valid. by rewrite bool_decide_eq_false. Qed.

Lemma errors_category form : f_category form = None → "category" ∈ errors form.
Proof.
  intros Hc. unfold errors. rewrite Hc. simpl.
  rewrite !elem_of_app. do 4 right. apply list_elem_of_here.
Qed.

(** ** The guarded views *)

Lemma TaskUpdateView_owner request u pk t w :
  request_user request = Some u →
  Task_objects w !! pk = Some t →
  user t = u →
  TaskUpdateView request pk w =
    let form := TaskForm_bind (Some u) (Category_objects w) (POST request) in
    if is_valid form then
      (inr (redirect "task-list"),
       mkWorld (<[pk := construct_instance form t]> (Task_objects w))
               (Category_objects w)
               (messages w ++ ["Task updated successfully!"]))
    else
      (inr (render "todo_app/task_form.html"
              (ctx_form (Some (pk, construct_instance form t)) (errors form))),
       w).
Proof.
  intros Hu Ht Hown. unfold TaskUpdateView. run_view. rewrite Hu, Ht.
  rewrite bool_decide_eq_true_2 by done. rewrite Ht.
  by destruct (is_valid _).
Qed.

Lemma TaskUpdateView_other request u pk t w :
  request_user request = Some u →
  Task_objects w !! pk = Some t →
  user t ≠ u →
  TaskUpdateView request pk w = (inl PermissionDenied, w).
Proof.
  intros Hu Ht Hother. unfold TaskUpdateView. run_view. rewrite Hu, Ht.
  by rewrite bool_decide_eq_false_2.
Qed.

(** C2, as the views have it.  For a logged-in user and a stored task:
    the owner is shown the task by the detail view and has it removed by
    the delete view; the update view admits the owner and then saves the
    submitted fields when the form is valid, and otherwise shows the form
    with its errors and stores nothing.  For any other user each of the
    three views raises PermissionDenied and the stored state is the one
    before. *)
Theorem owner_guard (request : HttpRequest) (u pk : Z) (t : Task) (w : World) :
  request_user request = Some u →
  Task_objects w !! pk = Some t →
  (user t = u →
     TaskDetailView request pk w =
       (inr (render "todo_app/task_detail.html" (ctx_object pk t)), w) ∧
     TaskDeleteView request pk w =
       (inr (redirect "task-list"),
        mkWorld (delete pk (Task_objects w)) (Category_objects w)
                (messages w ++ ["Task deleted successfully!"])) ∧
     TaskUpdateView request pk w =
       let form := TaskForm_bind (Some u) (Category_objects w) (POST request) in
       if is_valid form then
         (inr (redirect "task-list"),
          mkWorld (<[pk := construct_instance form t]> (Task_objects w))
                  (Category_objects w)
                  (messages w ++ ["Task updated successfully!"]))
       else
         (inr (render "todo_app/task_form.html"
                 (ctx_form (Some (pk, construct_instance form t))
                           (errors form))),
          w)) ∧
  (user t ≠ u →
     TaskDetailView request pk w = (inl PermissionDenied, w) ∧
     TaskDeleteView request pk w = (inl PermissionDenied, w) ∧
     TaskUpdateView request pk w = (inl PermissionDenied, w)).
Proof.
  intros Hu Ht. split.
  - intros Hown. split; [| split].
    + unfold TaskDetailView. run_view. rewrite Hu, Ht.
      rewrite bool_decide_eq_true_2 by done. by rewrite Ht.
    + unfold TaskDeleteView. run_view. rewrite Hu, Ht.
      rewrite bool_decide_eq_true_2 by done. by rewrite Ht.
    + by apply TaskUpdateView_owner.
  - intros Hother. split; [| split].
    + unfold TaskDetailView. run_view. rewrite Hu, Ht.
      by rewrite bool_decide_eq_false_2.
    + unfold TaskDeleteView. run_view. rewrite Hu, Ht.
      by rewrite bool_decide_eq_false_2.
    + by apply (TaskUpdateView_other _ u _ t).
Qed.

Lemma TaskCreateView_run request u w :
  request_user request = Some u →
  TaskCreateView request w =
    let form := TaskForm_bind (Some u) (Category_objects w) (POST request) in
    if is_valid form then
      (inr (redirect "task-list"),
       mkWorld (<[next_pk (Task_objects w) :=
                    construct_instance form (new_instance u)]> (Task_objects w))
               (Category_objects w)
               (messages w ++ ["Task created successfully!"]))
    else
      (inr (render "todo_app/task_form.html" (ctx_form None (errors form))), w).
Proof.
  intros Hu. unfold TaskCreateView. run_view. rewrite Hu.
  by destruct (is_valid _).
Qed.

(** C7. The form has no field for the owner, and a submitted value
    under any name that is no field of the form changes nothing of what
    the create view does.  When the form is valid the view stores one
    new task, under a key not in use, whose owner is the acting user;
    when it is not, nothing is stored. *)
Theorem create_stamps_owner (request : HttpRequest) (u : Z) (w : World) :
  request_user request = Some u →
  ("user" ∉ TaskForm_fields) ∧
  (∀ key value, key ∉ TaskForm_fields →
     TaskCreateView (with_POST request (<[key := value]> (POST request))) w =
     TaskCreateView request w) ∧
  (let form := TaskForm_bind (Some u) (Category_objects w) (POST request) in
   if is_valid form then
     ∃ pk t,
       Task_objects w !! pk = None ∧
       user t = u ∧
       TaskCreateView request w =
         (inr (redirect "task-list"),
          mkWorld (<[pk := t]> (Task_objects w)) (Category_objects w)
                  (messages w ++ ["Task created successfully!"]))
   else
     TaskCreateView request w =
       (inr (render "todo_app/task_form.html" (ctx_form None (errors form))),
        w)).
Proof.
  intros Hu. split; [| split].
  - unfold TaskForm_fields. rewrite !not_elem_of_cons.
    repeat split; try done. apply not_elem_of_nil.
  - intros key value Hkey.
    rewrite (TaskCreateView_run _ u), (TaskCreateView_run request u) by done.
    simpl. by rewrite TaskForm_bind_other_key.
  - rewrite (TaskCreateView_run request u) by done. simpl.
    destruct (is_valid _); [| done].
    eexists _, _. split; [apply next_pk_fresh |]. split; [| reflexivity].
    apply construct_instance_user.
Qed.

(** C8. The category field of a form built for user [u] accepts only
    keys of categories owned by [u].  A submitted key of a category of
    another user is an error on the category field: the create view
    shows the form again and stores nothing, and so does the update view
    on a task of [u]; whatever the key of the task, the update view
    leaves the stored state as it was. *)
Theorem foreign_category_rejected (request : HttpRequest) (u : Z) (w : World)
    (s : string) (k : Z) (c : Category) :
  request_user request = Some u →
  POST request !! "category" = Some s →
  to_pk s = Some k →
  Category_objects w !! k = Some c →
  category_user c ≠ u →
  let queryset := TaskForm_category_queryset (Some u) (Category_objects w) in
  let form := TaskForm_bind (Some u) (Category_objects w) (POST request) in
  (∀ value k', clean_category queryset value = Some (Some k') →
     ∃ c', Category_objects w !! k' = Some c' ∧ category_user c' = u) ∧
  "category" ∈ errors form ∧
  TaskCreateView request w =
    (inr (render "todo_app/task_form.html" (ctx_form None (errors form))), w) ∧
  (∀ pk t, Task_objects w !! pk = Some t → user t = u →
     TaskUpdateView request pk w =
       (inr (render "todo_app/task_form.html"
               (ctx_form (Some (pk, construct_instance form t)) (errors form))),
        w)) ∧
  (∀ pk, (TaskUpdateView request pk w).2 = w).
Proof.
  intros Hu Hs Hk Hc Hother queryset form.
  assert (Hcat : f_category form = None).
  { subst form. unfold TaskForm_bind. simpl. rewrite Hs.
    by apply (clean_category_foreign u _ s k c). }
  assert (Hinvalid : is_valid form = false).
  { apply is_valid_errors. intros Hnil.
    pose proof (errors_category form Hcat) as Hin.
    rewrite Hnil in Hin. by apply not_elem_of_nil in Hin. }
  split; [| split; [| split; [| split]]].
  - intros value k' Hclean. apply clean_category_Some in Hclean as [c' Hc'].
    subst queryset. simpl in Hc'.
    apply map_lookup_filter_Some in Hc' as [Hc' Hown]. by exists c'.
  - by apply errors_category.
  - rewrite (TaskCreateView_run request u) by done. simpl.
    fold form. by rewrite Hinvalid.
  - intros pk t Ht Hown.
    rewrite (TaskUpdateView_owner request u pk t) by done. simpl.
    fold form. by rewrite Hinvalid.
  - intros pk. destruct (Task_objects w !! pk) as [t|] eqn:Ht.
    + destruct (decide (user t = u)) as [Hown|Hforeign].
      * rewrite (TaskUpdateView_owner request u pk t) by done. simpl.
        fold form. by rewrite Hinvalid.
      * by rewrite (TaskUpdateView_other request u pk t).
    + unfold TaskUpdateView. run_view. by rewrite Hu, Ht.
Qed.

End Properties.

(** * The properties on the sample state *)

(** C2 as it is worded does not hold of the update view: the owner of
    task 1 submits the category of another user, the view shows the form
    with an error on the category and the stored state is the one
    before. *)
Lemma update_by_owner_not_saved :
  Task_objects sample_world !! 1 = Some report ∧
  user report = alice ∧
  request_user foreign_category_update = Some alice ∧
  TaskUpdateView foreign_category_update 1 sample_world =
    (inr (render "todo_app/task_form.html"
            (ctx_form (Some (1, report)) ["category"])),
     sample_world) ∧
  TaskUpdateView foreign_category_update 1 sample_world ≠
    (inr (redirect "task-list"),
     mkWorld (<[1 := construct_instance
                       (TaskForm_bind (Some alice)
                          (Category_objects sample_world)
                          (POST foreign_category_update)) report]>
                (Task_objects sample_world))
             (Category_objects sample_world)
             (messages sample_world ++ ["Task updated successfully!"])).
Proof.
  assert (Hrun : TaskUpdateView foreign_category_update 1 sample_world =
    (inr (render "todo_app/task_form.html"
            (ctx_form (Some (1, report)) ["category"])),
     sample_world)) by (vm_compute; reflexivity).
  repeat split; try (vm_compute; reflexivity).
  rewrite Hrun. intros Heq. discriminate Heq.
Qed.

Lemma list_ownership_isolation_witness :
  request_user (plain_request alice) = Some alice ∧
  GET (plain_request alice) !! "category" = None ∧
  GET (plain_request alice) !! "status" = None ∧
  ∃ queryset categories,
    TaskListView (plain_request alice) sample_world =
      (inr (render "todo_app/task_list.html"
                   (ctx_task_list queryset categories)), sample_world) ∧
    ∀ pk t, queryset !! pk = Some t ↔
            Task_objects sample_world !! pk = Some t ∧ user t = alice.
Proof.
  assert (Hu : request_user (plain_request alice) = Some alice) by reflexivity.
  assert (Hc : GET (plain_request alice) !! "category" = None) by reflexivity.
  assert (Hs : GET (plain_request alice) !! "status" = None) by reflexivity.
  exact (conj Hu (conj Hc (conj Hs
    (proj1 (list_ownership_isolation (plain_request alice) alice sample_world
              Hu Hc Hs))))).
Defined.

Lemma toggle_single_lookup_witness :
  request_user (plain_request alice) = Some alice ∧
  Task_objects sample_world !! 1 = Some report ∧
  user report = alice ∧
  (∃ t, Task_objects sample_world !! 3 = Some t ∧ user t ≠ alice) ∧
  (toggle_task_completion (plain_request alice) 1 sample_world).1 =
    inr (redirect "task-list") ∧
  toggle_task_completion (plain_request alice) 3 sample_world =
    (inl Http404, sample_world).
Proof.
  assert (Hu : request_user (plain_request alice) = Some alice) by reflexivity.
  assert (Ht : Task_objects sample_world !! 1 = Some report) by reflexivity.
  assert (Hown : user report = alice) by reflexivity.
  assert (Hother : ∃ t, Task_objects sample_world !! 3 = Some t ∧ user t ≠ alice).
  { exists laundry. split; [reflexivity | discriminate]. }
  pose proof (proj1 (toggle_single_lookup (plain_request alice) alice 1
                       sample_world Hu) report Ht Hown) as Hflip.
  pose proof (proj2 (toggle_single_lookup (plain_request alice) alice 3
                       sample_world Hu) (or_intror Hother)) as Hmiss.
  exact (conj Hu (conj Ht (conj Hown (conj Hother
    (conj (f_equal fst Hflip) Hmiss))))).
Defined.

Lemma status_filter_narrowing_witness :
  status_params "completed" !! "status" = Some "completed" ∧
  get_queryset (Task_objects sample_world) alice (status_params "completed") =
    inr (<[2 := groceries]> ∅) ∧
  completed groceries = true ∧
  status_params "pending" !! "status" = Some "pending" ∧
  get_queryset (Task_objects sample_world) alice (status_params "pending") =
    inr (<[1 := report]> ∅) ∧
  completed report = false ∧
  status_params "all" !! "status" ≠ Some "completed" ∧
  status_params "all" !! "status" ≠ Some "pending" ∧
  get_queryset (Task_objects sample_world) alice (status_params "all") =
    owner_and_category (Task_objects sample_world) alice
                       (status_params "all" !! "category").
Proof.
  assert (Hc : status_params "completed" !! "status" = Some "completed")
    by reflexivity.
  assert (Hqc : get_queryset (Task_objects sample_world) alice
                  (status_params "completed") = inr (<[2 := groceries]> ∅))
    by (vm_compute; reflexivity).
  assert (Hp : status_params "pending" !! "status" = Some "pending")
    by reflexivity.
  assert (Hqp : get_queryset (Task_objects sample_world) alice
                  (status_params "pending") = inr (<[1 := report]> ∅))
    by (vm_compute; reflexivity).
  assert (Hnc : status_params "all" !! "status" ≠ Some "completed")
    by (vm_compute; discriminate).
  assert (Hnp : status_params "all" !! "status" ≠ Some "pending")
    by (vm_compute; discriminate).
  pose proof (status_filter_narrowing (Task_objects sample_world) alice
                (status_params "completed")) as (Hdone & _ & _).
  pose proof (status_filter_narrowing (Task_objects sample_world) alice
                (status_params "pending")) as (_ & Hpending & _).
  pose proof (status_filter_narrowing (Task_objects sample_world) alice
                (status_params "all")) as (_ & _ & Hother).
  exact (conj Hc (conj Hqc (conj
    (Hdone Hc _ 2 groceries Hqc (lookup_insert_eq _ _ _))
    (conj Hp (conj Hqp (conj
      (Hpending Hp _ 1 report Hqp (lookup_insert_eq _ _ _))
      (conj Hnc (conj Hnp (Hother Hnc Hnp))))))))).
Defined.

Lemma status_filters_partition_witness :
  ∃ done_ pending_,
    get_queryset (Task_objects sample_world) alice
      (<["status" := "completed"]> ∅) = inr done_ ∧
    get_queryset (Task_objects sample_world) alice
      (<["status" := "pending"]> ∅) = inr pending_ ∧
    done_ ∪ pending_ = objects_filter_user (Task_objects sample_world) alice ∧
    done_ ##ₘ pending_.
Proof.
  pose proof (status_filters_partition (Task_objects sample_world) alice ∅)
    as Hpart.
  change (get_queryset (Task_objects sample_world) alice (delete "status" ∅))
    with (@inr Exn _ (objects_filter_user (Task_objects sample_world) alice))
    in Hpart.
  destruct Hpart as (done_ & pending_ & Hd & Hp & Hunion & Hdisj & _).
  exists done_, pending_. exact (conj Hd (conj Hp (conj Hunion Hdisj))).
Defined.

Lemma toggle_involution_witness :
  request_user (plain_request alice) = Some alice ∧
  Task_objects sample_world !! 1 = Some report ∧
  user report = alice ∧
  ∃ w1 w2,
    toggle_task_completion (plain_request alice) 1 sample_world =
      (inr (redirect "task-list"), w1) ∧
    toggle_task_completion (plain_request alice) 1 w1 =
      (inr (redirect "task-list"), w2) ∧
    completed <$> Task_objects w1 !! 1 = Some (negb (completed report)) ∧
    completed <$> Task_objects w2 !! 1 = Some (completed report) ∧
    w2 = sample_world.
Proof.
  assert (Hu : request_user (plain_request alice) = Some alice) by reflexivity.
  assert (Ht : Task_objects sample_world !! 1 = Some report) by reflexivity.
  assert (Hown : user report = alice) by reflexivity.
  exact (conj Hu (conj Ht (conj Hown
    (toggle_involution (plain_request alice) alice 1 report sample_world
       Hu Ht Hown)))).
Defined.

Lemma toggle_frame_witness :
  toggle_task_completion (plain_request alice) 1 sample_world =
    (inr (redirect "task-list"), report_done_world) ∧
  ∃ t t',
    Task_objects sample_world !! 1 = Some t ∧
    Task_objects report_done_world !! 1 = Some t' ∧
    completed t' = negb (completed t) ∧
    title t' = title t ∧ description t' = description t ∧
    due_date t' = due_date t ∧ priority t' = priority t ∧
    category t' = category t ∧ user t' = user t ∧
    (∀ k, k ≠ 1 → Task_objects report_done_world !! k =
                  Task_objects sample_world !! k) ∧
    Category_objects report_done_world = Category_objects sample_world.
Proof.
  assert (Hrun : toggle_task_completion (plain_request alice) 1 sample_world =
                 (inr (redirect "task-list"), report_done_world))
    by (vm_compute; reflexivity).
  exact (conj Hrun
    (toggle_frame (plain_request alice) 1 sample_world report_done_world Hrun)).
Defined.

Lemma profile_counts_witness :
  request_user (plain_request alice) = Some alice ∧
  profile (plain_request alice) sample_world =
    (inr (render "registration/profile.html" (ctx_profile 2 1 1)),
     sample_world) ∧
  2 = 1 + 1.
Proof.
  assert (Hu : request_user (plain_request alice) = Some alice) by reflexivity.
  destruct (profile_counts (plain_request alice) alice sample_world Hu)
    as (total & done_ & pending & Hrun & Htotal & Hdone & _ & Hsum & _).
  assert (Ht : total = 2) by (rewrite Htotal; vm_compute; reflexivity).
  assert (Hd : done_ = 1) by (rewrite Hdone; vm_compute; reflexivity).
  assert (Hp : pending = 1) by lia.
  rewrite Ht, Hd, Hp in Hrun. rewrite Ht, Hd, Hp in Hsum.
  exact (conj Hu (conj Hrun Hsum)).
Defined.

Lemma owner_guard_witness :
  request_user (plain_request alice) = Some alice ∧
  request_user (plain_request bob) = Some bob ∧
  Task_objects sample_world !! 1 = Some report ∧
  user report = alice ∧
  user report ≠ bob ∧
  TaskDetailView (plain_request alice) 1 sample_world =
    (inr (render "todo_app/task_detail.html" (ctx_object 1 report)),
     sample_world) ∧
  TaskDetailView (plain_request bob) 1 sample_world =
    (inl PermissionDenied, sample_world) ∧
  TaskDeleteView (plain_request bob) 1 sample_world =
    (inl PermissionDenied, sample_world) ∧
  TaskUpdateView (plain_request bob) 1 sample_world =
    (inl PermissionDenied, sample_world).
Proof.
  assert (Ha : request_user (plain_request alice) = Some alice) by reflexivity.
  assert (Hb : request_user (plain_request bob) = Some bob) by reflexivity.
  assert (Ht : Task_objects sample_world !! 1 = Some report) by reflexivity.
  assert (Hown : user report = alice) by reflexivity.
  assert (Hother : user report ≠ bob) by discriminate.
  pose proof (proj1 (owner_guard (plain_request alice) alice 1 report
                       sample_world Ha Ht) Hown) as (Hdetail & _ & _).
  pose proof (proj2 (owner_guard (plain_request bob) bob 1 report
                       sample_world Hb Ht) Hother) as Hdenied.
  exact (conj Ha (conj Hb (conj Ht (conj Hown (conj Hother
    (conj Hdetail Hdenied)))))).
Defined.

Lemma create_stamps_owner_witness :
  request_user create_with_owner = Some bob ∧
  POST create_with_owner !! "user" = Some "1" ∧
  ∃ pk t,
    Task_objects sample_world !! pk = None ∧
    user t = bob ∧
    TaskCreateView create_with_owner sample_world =
      (inr (redirect "task-list"),
       mkWorld (<[pk := t]> (Task_objects sample_world))
               (Category_objects sample_world)
               (messages sample_world ++ ["Task created successfully!"])).
Proof.
  assert (Hu : request_user create_with_owner = Some bob) by reflexivity.
  assert (Hpost : POST create_with_owner !! "user" = Some "1") by reflexivity.
  exact (conj Hu (conj Hpost
    (proj2 (proj2 (create_stamps_owner create_with_owner bob sample_world Hu))))).
Defined.

Lemma foreign_category_rejected_witness :
  request_user foreign_category_create = Some alice ∧
  POST foreign_category_create !! "category" = Some "2" ∧
  to_pk "2" = Some 2 ∧
  Category_objects sample_world !! 2 = Some (mkCategory "Home" bob) ∧
  category_user (mkCategory "Home" bob) ≠ alice ∧
  TaskCreateView foreign_category_create sample_world =
    (inr (render "todo_app/task_form.html" (ctx_form None ["category"])),
     sample_world) ∧
  ∀ pk, (TaskUpdateView foreign_category_create pk sample_world).2 =
        sample_world.
Proof.
  assert (Hu : request_user foreign_category_create = Some alice)
    by reflexivity.
  assert (Hs : POST foreign_category_create !! "category" = Some "2")
    by reflexivity.
  assert (Hk : to_pk "2" = Some 2) by reflexivity.
  assert (Hc : Category_objects sample_world !! 2 = Some (mkCategory "Home" bob))
    by reflexivity.
  assert (Hother : category_user (mkCategory "Home" bob) ≠ alice)
    by discriminate.
  pose proof (foreign_category_rejected foreign_category_create alice
                sample_world "2" 2 (mkCategory "Home" bob) Hu Hs Hk Hc Hother)
    as (_ & _ & Hcreate & _ & Hupdate).
  exact (conj Hu (conj Hs (conj Hk (conj Hc (conj Hother
    (conj Hcreate Hupdate)))))).
Defined.

(** * Further properties of the views *)

Lemma truthy_true s : truthy s = true ↔ s ≠ "".
Proof.
  unfold truthy. destruct (String.eqb_spec s ""); simpl; split; intros; done.
Qed.

Lemma truthy_false s : truthy s = false ↔ s = "".
Proof.
  unfold truthy. destruct (String.eqb_spec s ""); simpl; split; intros; done.
Qed.

Section MoreProperties.
Context `{ModelFields} `{CategoryFields}.

(** ** What each view does for a logged-in user *)

Lemma TaskListView_run request u w :
  request_user request = Some u →
  TaskListView request w =
    match get_queryset (Task_objects w) u (GET request) with
    | inl e => (inl e, w)
    | inr queryset =>
        (inr (render "todo_app/task_list.html"
                (ctx_task_list queryset
                   (Category_filter_user (Category_objects w) u))), w)
    end.
Proof.
  intros Hu. unfold TaskListView. run_view. rewrite Hu.
  by destruct (get_queryset _ _ _).
Qed.

Lemma TaskDetailView_run request u pk w :
  request_user request = Some u →
  TaskDetailView request pk w =
    match Task_objects w !! pk with
    | Some t =>
        if bool_decide (user t = u) then
          (inr (render "todo_app/task_detail.html" (ctx_object pk t)), w)
        else (inl PermissionDenied, w)
    | None => (inl Http404, w)
    end.
Proof.
  intros Hu. unfold TaskDetailView. run_view. rewrite Hu.
  destruct (Task_objects w !! pk) as [t|] eqn:Ht; [| done].
  destruct (bool_decide (user t = u)); [| done]. by rewrite Ht.
Qed.

Lemma TaskDeleteView_run request u pk w :
  request_user request = Some u →
  TaskDeleteView request pk w =
    match Task_objects w !! pk with
    | Some t =>
        if bool_decide (user t = u) then
          (inr (redirect "task-list"),
           mkWorld (delete pk (Task_objects w)) (Category_objects w)
                   (messages w ++ ["Task deleted successfully!"]))
        else (inl PermissionDenied, w)
    | None => (inl Http404, w)
    end.
Proof.
  intros Hu. unfold TaskDeleteView. run_view. rewrite Hu.
  destruct (Task_objects w !! pk) as [t|] eqn:Ht; [| done].
  destruct (bool_decide (user t = u)); [| done]. by rewrite Ht.
Qed.

Lemma TaskUpdateView_run request u pk w :
  request_user request = Some u →
  TaskUpdateView request pk w =
    match Task_objects w !! pk with
    | Some t =>
        if bool_decide (user t = u) then
          let form :=
            TaskForm_bind (Some u) (Category_objects w) (POST request) in
          if is_valid form then
            (inr (redirect "task-list"),
             mkWorld (<[pk := construct_instance form t]> (Task_objects w))
                     (Category_objects w)
                     (messages w ++ ["Task updated successfully!"]))
          else
            (inr (render "todo_app/task_form.html"
                    (ctx_form (Some (pk, construct_instance form t))
                              (errors form))), w)
        else (inl PermissionDenied, w)
    | None => (inl Http404, w)
    end.
Proof.
  intros Hu. unfold TaskUpdateView. run_view. rewrite Hu.
  destruct (Task_objects w !! pk) as [t|] eqn:Ht; [| done].
  destruct (bool_decide (user t = u)); [| done]. rewrite Ht.
  by destruct (is_valid _).
Qed.

Lemma toggle_run request u pk w :
  request_user request = Some u →
  toggle_task_completion request pk w =
    match Task_objects w !! pk with
    | Some t =>
        if bool_decide (user t = u) then
          (inr (redirect "task-list"),
           mkWorld (<[pk := set_completed (negb (completed t)) t]>
                      (Task_objects w))
                   (Category_objects w) (messages w))
        else (inl Http404, w)
    | None => (inl Http404, w)
    end.
Proof.
  intros Hu. destruct (Task_objects w !! pk) as [t|] eqn:Ht.
  - case_bool_decide as Hown.
    + by apply (toggle_found _ u).
    + apply (toggle_not_found _ u); [done |]. apply eq_None_not_Some.
      intros [t' Ht']. apply lookup_objects_filter_user in Ht' as [Ht' Hu'].
      congruence.
  - apply (toggle_not_found _ u); [done |]. apply eq_None_not_Some.
    intros [t' Ht']. apply lookup_objects_filter_user in Ht' as [Ht' _].
    congruence.
Qed.

Lemma category_create_run request u w :
  request_user request = Some u →
  category_create request w =
    match method request with
    | POST_method =>
        match clean_name (POST request !! "name") with
        | Some name =>
            (inr (redirect "task-list"),
             mkWorld (Task_objects w)
                     (<[next_pk (Category_objects w) := mkCategory name u]>
                        (Category_objects w))
                     (messages w ++ ["Category created successfully!"]))
        | None =>
            (inr (render "todo_app/category_form.html"
                    (ctx_form None ["name"])), w)
        end
    | GET_method =>
        (inr (render "todo_app/category_form.html" (ctx_form None [])), w)
    end.
Proof.
  intros Hu. unfold category_create, Category_insert. run_view. rewrite Hu.
  destruct (method request); [done |].
  by destruct (clean_name _).
Qed.

(** ** The list view *)

Lemma owner_and_category_spec objects u category_id queryset pk t :
  owner_and_category objects u category_id = inr queryset →
  (queryset !! pk = Some t ↔
   objects !! pk = Some t ∧ user t = u ∧
   ∀ s, category_id = Some s → s ≠ "" →
        ∃ k, to_pk s = Some k ∧ category t = Some k).
Proof.
  unfold owner_and_category, filter_category_id. intros Hq.
  destruct category_id as [id|].
  - destruct (truthy id) eqn:Hid.
    + apply truthy_true in Hid. destruct (to_pk id) as [k|] eqn:Hk; [| done].
      simplify_eq. rewrite map_lookup_filter_Some, lookup_objects_filter_user.
      simpl. split.
      * intros [[Ht Hu] Hc]. repeat split; try done.
        intros s Hs _. simplify_eq. by exists k.
      * intros (Ht & Hu & Hc). repeat split; try done.
        destruct (Hc id eq_refl Hid) as (k' & Hk' & Hcat). congruence.
    + apply truthy_false in Hid. simplify_eq.
      rewrite lookup_objects_filter_user. split.
      * intros [Ht Hu]. split; [done |]. split; [done |].
        intros s Hs Hne. by simplify_eq.
      * intros (Ht & Hu & _). done.
  - simplify_eq. rewrite lookup_objects_filter_user. split.
    + intros [Ht Hu]. split; [done |]. split; [done |]. intros s Hs. done.
    + intros (Ht & Hu & _). done.
Qed.

(** X1. The filters of the list add up: a task is in the result exactly when
    it is stored, owned by the user, in the category the request names
    (if it names one), and of the status the request names (if it names
    "completed" or "pending"). *)
Theorem get_queryset_conjunction (objects : gmap Z Task) (u : Z)
    (params : gmap string string) (queryset : gmap Z Task) (pk : Z) (t : Task) :
  get_queryset objects u params = inr queryset →
  (queryset !! pk = Some t ↔
   objects !! pk = Some t ∧ user t = u ∧
   (∀ s, params !! "category" = Some s → s ≠ "" →
         ∃ k, to_pk s = Some k ∧ category t = Some k) ∧
   (params !! "status" = Some "completed" → completed t = true) ∧
   (params !! "status" = Some "pending" → completed t = false)).
Proof.
  rewrite get_queryset_status.
  destruct (owner_and_category _ _ _) as [e|base] eqn:Hbase; [done |].
  pose proof (owner_and_category_spec _ _ _ _ pk t Hbase) as Hspec.
  intros Hq. repeat case_decide; simplify_eq.
  - rewrite lookup_filter_completed, Hspec. split.
    + intros [(Ht & Hu & Hc) Hdone]. repeat split; try done; congruence.
    + intros (Ht & Hu & Hc & Hdone & _). auto.
  - rewrite lookup_filter_completed, Hspec. split.
    + intros [(Ht & Hu & Hc) Hpend]. repeat split; try done; congruence.
    + intros (Ht & Hu & Hc & _ & Hpend). auto.
  - rewrite Hspec. split.
    + intros (Ht & Hu & Hc). repeat split; try done; congruence.
    + intros (Ht & Hu & Hc & _). done.
Qed.

(** X2. The list view raises exactly when the category parameter is a
    non-empty text that is no key; what it raises is ValueError, and
    the stored state is the one before. *)
Theorem TaskListView_raises (request : HttpRequest) (u : Z) (w w' : World)
    (e : Exn) :
  request_user request = Some u →
  (TaskListView request w = (inl e, w') ↔
   e = ValueError ∧ w' = w ∧
   ∃ s, GET request !! "category" = Some s ∧ s ≠ "" ∧ to_pk s = None).
Proof.
  intros Hu. rewrite (TaskListView_run request u) by done.
  rewrite get_queryset_status. unfold owner_and_category, filter_category_id.
  destruct (GET request !! "category") as [id|] eqn:Hid.
  - destruct (truthy id) eqn:Htruthy.
    + apply truthy_true in Htruthy. destruct (to_pk id) as [k|] eqn:Hk.
      * split.
        -- repeat case_decide; intros; simplify_eq.
        -- intros (_ & _ & s & Hs & _ & Hnone). congruence.
      * split.
        -- intros Hrun. simplify_eq. repeat split; try done. by exists id.
        -- intros (-> & -> & _). done.
    + apply truthy_false in Htruthy. split.
      * repeat case_decide; intros; simplify_eq.
      * intros (_ & _ & s & Hs & Hne & _). congruence.
  - split.
    + repeat case_decide; intros; simplify_eq.
    + intros (_ & _ & s & Hs & _). done.
Qed.

(** X3. An empty category parameter narrows nothing: the result is the one
    of the request without the parameter. *)
Theorem get_queryset_empty_category (objects : gmap Z Task) (u : Z)
    (params : gmap string string) :
  get_queryset objects u (<["category" := ""]> params) =
  get_queryset objects u (delete "category" params).
Proof.
  rewrite !get_queryset_status.
  rewrite lookup_insert_eq, lookup_delete_eq.
  rewrite (lookup_insert_ne params "category" "status") by done.
  by rewrite (lookup_delete_ne params "category" "status") by done.
Qed.

(** X4. Whatever the parameters, the categories the list view shows with
    the tasks are exactly the stored categories of the user. *)
Theorem TaskListView_categories (request : HttpRequest) (u : Z) (w w' : World)
    (template_name : string) (tasks : gmap Z Task)
    (categories : gmap Z Category) :
  request_user request = Some u →
  TaskListView request w =
    (inr (render template_name (ctx_task_list tasks categories)), w') →
  ∀ k c, categories !! k = Some c ↔
         Category_objects w !! k = Some c ∧ category_user c = u.
Proof.
  intros Hu. rewrite (TaskListView_run request u) by done.
  destruct (get_queryset _ _ _); intros Hrun; simplify_eq.
  intros k c. unfold Category_filter_user. by rewrite map_lookup_filter_Some.
Qed.

(** ** Requests that change nothing *)

(** X5. The profile, the list and the detail view, and the category view on
    a request that is no POST, never change the stored state, whoever
    asks and whatever they answer. *)
Theorem reading_views_keep_state (request : HttpRequest) (pk : Z) (w : World) :
  (profile request w).2 = w ∧
  (TaskListView request w).2 = w ∧
  (TaskDetailView request pk w).2 = w ∧
  (method request = GET_method → (category_create request w).2 = w).
Proof.
  destruct (request_user request) as [u|] eqn:Hu.
  - rewrite (TaskListView_run request u), (TaskDetailView_run request u),
      (category_create_run request u) by done.
    repeat split.
    + unfold profile. run_view. by rewrite Hu.
    + by destruct (get_queryset _ _ _).
    + destruct (Task_objects w !! pk) as [t|]; [| done].
      by destruct (bool_decide _).
    + by intros ->.
  - unfold profile, TaskListView, TaskDetailView, category_create.
    run_view. by rewrite Hu.
Qed.

Lemma anonymous_redirected_all request pk w :
  request_user request = None →
  profile request w = (inr (redirect "login"), w) ∧
  TaskListView request w = (inr (redirect "login"), w) ∧
  TaskDetailView request pk w = (inr (redirect "login"), w) ∧
  TaskCreateView request w = (inr (redirect "login"), w) ∧
  TaskUpdateView request pk w = (inr (redirect "login"), w) ∧
  TaskDeleteView request pk w = (inr (redirect "login"), w) ∧
  toggle_task_completion request pk w = (inr (redirect "login"), w) ∧
  category_create request w = (inr (redirect "login"), w).
Proof.
  intros Hu.
  unfold profile, TaskListView, TaskDetailView, TaskCreateView, TaskUpdateView,
    TaskDeleteView, toggle_task_completion, category_create.
  run_view. by rewrite Hu.
Qed.

(** X6. Nobody logged in: every view behind the login answers with the
    redirect to the login page and leaves the stored state as it is. *)
Theorem anonymous_redirected (request : HttpRequest) (pk : Z) (w : World) :
  request_user request = None →
  profile request w = (inr (redirect "login"), w) ∧
  TaskListView request w = (inr (redirect "login"), w) ∧
  TaskDetailView request pk w = (inr (redirect "login"), w) ∧
  TaskCreateView request w = (inr (redirect "login"), w) ∧
  TaskUpdateView request pk w = (inr (redirect "login"), w) ∧
  TaskDeleteView request pk w = (inr (redirect "login"), w) ∧
  toggle_task_completion request pk w = (inr (redirect "login"), w) ∧
  category_create request w = (inr (redirect "login"), w).
Proof.
  intros Hu.
  unfold profile, TaskListView, TaskDetailView, TaskCreateView, TaskUpdateView,
    TaskDeleteView, toggle_task_completion, category_create.
  run_view. by rewrite Hu.
Qed.


(** ** Writes stay with the owner *)

(** X8. A stored task whose owner is not the user of the request is stored
    unchanged after any of the writing views, whatever key and data the
    request names. *)
Theorem foreign_tasks_untouched (request : HttpRequest) (pk pk' : Z) (t : Task)
    (w : World) :
  Task_objects w !! pk' = Some t →
  request_user request ≠ Some (user t) →
  Task_objects (TaskCreateView request w).2 !! pk' = Some t ∧
  Task_objects (TaskUpdateView request pk w).2 !! pk' = Some t ∧
  Task_objects (TaskDeleteView request pk w).2 !! pk' = Some t ∧
  Task_objects (toggle_task_completion request pk w).2 !! pk' = Some t ∧
  Task_objects (category_create request w).2 !! pk' = Some t.
Proof.
  intros Ht Hforeign. destruct (request_user request) as [u|] eqn:Hu.
  - assert (Hne : user t ≠ u) by congruence.
    assert (Hfresh : next_pk (Task_objects w) ≠ pk').
    { intros Heq. pose proof (next_pk_fresh (Task_objects w)). congruence. }
    assert (Hpk : ∀ t0, Task_objects w !! pk = Some t0 → user t0 = u → pk ≠ pk').
    { intros t0 Ht0 Hown ->. congruence. }
    rewrite (TaskCreateView_run request u), (TaskUpdateView_run request u),
      (TaskDeleteView_run request u), (toggle_run request u),
      (category_create_run request u) by done.
    repeat split.
    + simpl. destruct (is_valid _); simpl; [| done]. by rewrite lookup_insert_ne.
    + destruct (Task_objects w !! pk) as [t0|] eqn:Ht0; [| done].
      case_bool_decide as Hown; [| done]. simpl.
      destruct (is_valid _); simpl; [| done].
      rewrite lookup_insert_ne; [done | by apply (Hpk t0)].
    + destruct (Task_objects w !! pk) as [t0|] eqn:Ht0; [| done].
      case_bool_decide as Hown; [| done]. simpl.
      rewrite lookup_delete_ne; [done | by apply (Hpk t0)].
    + destruct (Task_objects w !! pk) as [t0|] eqn:Ht0; [| done].
      case_bool_decide as Hown; [| done]. simpl.
      rewrite lookup_insert_ne; [done | by apply (Hpk t0)].
    + destruct (method request); [done |]. by destruct (clean_name _).
  - pose proof (anonymous_redirected_all request pk w Hu)
      as (_ & _ & _ & -> & -> & -> & -> & ->). done.
Qed.

Lemma construct_instance_idem form t :
  construct_instance form (construct_instance form t) = construct_instance form t.
Proof.
  unfold construct_instance. simpl.
  by destruct (f_title form), (f_description form), (f_due_date form),
    (f_priority form), (f_category form).
Qed.

(** X9. The update view leaves the owner and the completion flag of the
    task as they are, whoever asks and whatever is submitted; tasks
    under other keys and the categories are the ones stored before. *)
Theorem update_keeps_owner_and_flag (request : HttpRequest) (pk : Z) (t : Task)
    (w : World) :
  Task_objects w !! pk = Some t →
  (∃ t', Task_objects (TaskUpdateView request pk w).2 !! pk = Some t' ∧
         user t' = user t ∧ completed t' = completed t) ∧
  (∀ k, k ≠ pk → Task_objects (TaskUpdateView request pk w).2 !! k =
                 Task_objects w !! k) ∧
  Category_objects (TaskUpdateView request pk w).2 = Category_objects w.
Proof.
  intros Ht. destruct (request_user request) as [u|] eqn:Hu.
  - rewrite (TaskUpdateView_run request u) by done. rewrite Ht.
    case_bool_decide as Hown; [| by repeat split; try exists t].
    simpl. destruct (is_valid _); simpl; [| by repeat split; try exists t].
    repeat split.
    + eexists. by rewrite lookup_insert_eq.
    + intros k Hk. by rewrite lookup_insert_ne.
  - pose proof (anonymous_redirected_all request pk w Hu)
      as (_ & _ & _ & _ & -> & _). by repeat split; try exists t.
Qed.

(** X10. A submitted value under a name that is no field of the form, such
    as an owner or a completion flag, changes nothing of what the
    update view does. *)
Theorem update_ignores_other_keys (request : HttpRequest) (pk : Z) (w : World)
    (key value : string) :
  key ∉ TaskForm_fields →
  TaskUpdateView (with_POST request (<[key := value]> (POST request))) pk w =
  TaskUpdateView request pk w.
Proof.
  intros Hkey. destruct (request_user request) as [u|] eqn:Hu.
  - rewrite (TaskUpdateView_run _ u), (TaskUpdateView_run request u) by done.
    simpl. by rewrite TaskForm_bind_other_key.
  - unfold TaskUpdateView. run_view. by rewrite Hu.
Qed.

(** X11. Submitting the same update a second time stores nothing new: the
    tasks after the second request are those after the first, and the
    answer is the same. *)
Theorem update_idempotent (request : HttpRequest) (pk : Z) (w : World) :
  Task_objects (TaskUpdateView request pk (TaskUpdateView request pk w).2).2 =
    Task_objects (TaskUpdateView request pk w).2 ∧
  (TaskUpdateView request pk (TaskUpdateView request pk w).2).1 =
    (TaskUpdateView request pk w).1.
Proof.
  destruct (request_user request) as [u|] eqn:Hu.
  - rewrite (TaskUpdateView_run request u pk w) by done.
    destruct (Task_objects w !! pk) as [t|] eqn:Ht.
    + case_bool_decide as Hown.
      * simpl. destruct (is_valid _) eqn:Hvalid; simpl.
        -- rewrite (TaskUpdateView_run request u) by done. simpl.
           rewrite lookup_insert_eq.
           rewrite bool_decide_eq_true_2 by done. rewrite Hvalid. simpl.
           by rewrite construct_instance_idem, insert_insert_eq.
        -- rewrite (TaskUpdateView_run request u) by done.
           rewrite Ht. rewrite bool_decide_eq_true_2 by done. simpl.
           by rewrite Hvalid.
      * simpl. rewrite (TaskUpdateView_run request u) by done.
        rewrite Ht. by rewrite bool_decide_eq_false_2.
    + simpl. rewrite (TaskUpdateView_run request u) by done. by rewrite Ht.
  - unfold TaskUpdateView. run_view. by rewrite Hu.
Qed.

(** ** Creating and deleting *)

Lemma is_valid_fields form :
  is_valid form = true →
  ∃ a b c d e, form = mkTaskForm (Some a) (Some b) (Some c) (Some d) (Some e).
Proof.
  unfold is_valid, errors, field_error. intros Hvalid.
  apply bool_decide_eq_true in Hvalid.
  destruct form as [[a|] [b|] [c|] [d|] [e|]]; simplify_eq.
  by exists a, b, c, d, e.
Qed.

Lemma TaskCreateView_created request w w' :
  TaskCreateView request w = (inr (redirect "task-list"), w') →
  ∃ u form,
    request_user request = Some u ∧
    form = TaskForm_bind (Some u) (Category_objects w) (POST request) ∧
    is_valid form = true ∧
    w' = mkWorld (<[next_pk (Task_objects w) :=
                      construct_instance form (new_instance u)]>
                    (Task_objects w))
                 (Category_objects w)
                 (messages w ++ ["Task created successfully!"]).
Proof.
  destruct (request_user request) as [u|] eqn:Hu.
  - rewrite (TaskCreateView_run request u) by done. simpl.
    destruct (is_valid _) eqn:Hvalid; intros Hrun; simplify_eq.
    by exists u, (TaskForm_bind (Some u) (Category_objects w) (POST request)).
  - unfold TaskCreateView. run_view. rewrite Hu. intros Hrun. simplify_eq.
Qed.

(** X12. When the create view answers with the redirect to the list, every
    task stored before is stored unchanged, there is one task more, it
    is not completed, its fields are the cleaned values of the form,
    and the categories are the ones stored before. *)
Theorem create_adds_one_task (request : HttpRequest) (w w' : World) :
  TaskCreateView request w = (inr (redirect "task-list"), w') →
  (∀ pk t, Task_objects w !! pk = Some t → Task_objects w' !! pk = Some t) ∧
  size (Task_objects w') = S (size (Task_objects w)) ∧
  Category_objects w' = Category_objects w ∧
  ∃ pk t,
    Task_objects w !! pk = None ∧
    Task_objects w' !! pk = Some t ∧
    completed t = false ∧
    TaskForm_bind (request_user request) (Category_objects w) (POST request) =
      mkTaskForm (Some (title t)) (Some (description t)) (Some (due_date t))
                 (Some (priority t)) (Some (category t)).
Proof.
  intros Hrun.
  apply TaskCreateView_created in Hrun as (u & form & Hu & Hform & Hvalid & ->).
  pose proof (next_pk_fresh (Task_objects w)) as Hfresh. simpl.
  repeat split.
  - intros pk t Ht. rewrite lookup_insert_ne; [done | congruence].
  - by apply map_size_insert_None.
  - exists (next_pk (Task_objects w)), (construct_instance form (new_instance u)).
    rewrite lookup_insert_eq. repeat split; try done.
    rewrite Hu, <- Hform.
    destruct (is_valid_fields form Hvalid) as (a & b & c & d & e & ->). done.
Qed.

(** X13. The task a user creates is shown to that user by the detail view
    under its new key, and is in the list of that user; for any other
    user the detail view raises PermissionDenied and toggling raises
    Http404. *)
Theorem created_task_round_trip (request : HttpRequest) (u : Z) (w w' : World) :
  request_user request = Some u →
  TaskCreateView request w = (inr (redirect "task-list"), w') →
  ∃ pk t,
    Task_objects w !! pk = None ∧
    user t = u ∧
    (∀ request', request_user request' = Some u →
       TaskDetailView request' pk w' =
         (inr (render "todo_app/task_detail.html" (ctx_object pk t)), w') ∧
       ∃ queryset,
         get_queryset (Task_objects w') u ∅ = inr queryset ∧
         queryset !! pk = Some t) ∧
    (∀ request' v, request_user request' = Some v → v ≠ u →
       TaskDetailView request' pk w' = (inl PermissionDenied, w') ∧
       toggle_task_completion request' pk w' = (inl Http404, w')).
Proof.
  intros Hu Hrun.
  apply TaskCreateView_created in Hrun as (u' & form & Hu' & Hform & Hvalid & ->).
  assert (u' = u) as -> by congruence.
  exists (next_pk (Task_objects w)), (construct_instance form (new_instance u)).
  split; [apply next_pk_fresh |]. split; [done |]. split.
  - intros request' Hreq. split.
    + rewrite (TaskDetailView_run request' u) by done. simpl.
      rewrite lookup_insert_eq. by rewrite bool_decide_eq_true_2.
    + eexists. split; [reflexivity |].
      apply lookup_objects_filter_user. simpl. by rewrite lookup_insert_eq.
  - intros request' v Hreq Hv. split.
    + rewrite (TaskDetailView_run request' v) by done. simpl.
      rewrite lookup_insert_eq. rewrite bool_decide_eq_false_2; [done |].
      simpl. congruence.
    + rewrite (toggle_run request' v) by done. simpl.
      rewrite lookup_insert_eq. rewrite bool_decide_eq_false_2; [done |].
      simpl. congruence.
Qed.

(** X14. After the owner deletes a task its key is free, there is one task
    less, the other tasks and the categories are the ones stored
    before, and for every logged-in user the detail, update, delete and
    toggle views raise Http404 on that key. *)
Theorem deleted_task_is_gone (request : HttpRequest) (u pk : Z) (t : Task)
    (w : World) :
  request_user request = Some u →
  Task_objects w !! pk = Some t →
  user t = u →
  ∃ w',
    TaskDeleteView request pk w = (inr (redirect "task-list"), w') ∧
    Task_objects w' !! pk = None ∧
    (∀ k, k ≠ pk → Task_objects w' !! k = Task_objects w !! k) ∧
    S (size (Task_objects w')) = size (Task_objects w) ∧
    Category_objects w' = Category_objects w ∧
    (∀ request' v, request_user request' = Some v →
       TaskDetailView request' pk w' = (inl Http404, w') ∧
       TaskUpdateView request' pk w' = (inl Http404, w') ∧
       TaskDeleteView request' pk w' = (inl Http404, w') ∧
       toggle_task_completion request' pk w' = (inl Http404, w')).
Proof.
  intros Hu Ht Hown. eexists. split.
  { rewrite (TaskDeleteView_run request u) by done. rewrite Ht.
    by rewrite bool_decide_eq_true_2. }
  simpl. repeat split.
  - apply lookup_delete_eq.
  - intros k Hk. by rewrite lookup_delete_ne.
  - rewrite map_size_delete_Some by (by exists t).
    assert (size (Task_objects w) ≠ 0%nat); [| lia].
    intros Hsize. apply map_size_empty_iff in Hsize.
    rewrite Hsize in Ht. by rewrite lookup_empty in Ht.
  - rewrite (TaskDetailView_run request' v) by done. simpl.
    by rewrite lookup_delete_eq.
  - rewrite (TaskUpdateView_run request' v) by done. simpl.
    by rewrite lookup_delete_eq.
  - rewrite (TaskDeleteView_run request' v) by done. simpl.
    by rewrite lookup_delete_eq.
  - rewrite (toggle_run request' v) by done. simpl.
    by rewrite lookup_delete_eq.
Qed.

(** ** Categories *)

Lemma category_create_created request w w' :
  category_create request w = (inr (redirect "task-list"), w') →
  ∃ u name,
    request_user request = Some u ∧
    method request = POST_method ∧
    clean_name (POST request !! "name") = Some name ∧
    w' = mkWorld (Task_objects w)
                 (<[next_pk (Category_objects w) := mkCategory name u]>
                    (Category_objects w))
                 (messages w ++ ["Category created successfully!"]).
Proof.
  destruct (request_user request) as [u|] eqn:Hu.
  - rewrite (category_create_run request u) by done.
    destruct (method request); [intros; simplify_eq |].
    destruct (clean_name _) as [name|] eqn:Hname; intros; simplify_eq.
    by exists u, name.
  - unfold category_create. run_view. rewrite Hu. intros; simplify_eq.
Qed.

(** X15. When the category view answers with the redirect to the list, it
    was a POST of a logged-in user, the tasks and the categories stored
    before are unchanged, and one category is added under a key not in
    use: its owner is the user of the request and its name the cleaned
    submitted name.  Submitted values under other names, such as an
    owner, change nothing of what the view does. *)
Theorem category_create_stamps_owner (request : HttpRequest) (w w' : World) :
  category_create request w = (inr (redirect "task-list"), w') →
  Task_objects w' = Task_objects w ∧
  (∀ k c, Category_objects w !! k = Some c → Category_objects w' !! k = Some c) ∧
  (∃ k c,
     Category_objects w !! k = None ∧
     Category_objects w' = <[k := c]> (Category_objects w) ∧
     request_user request = Some (category_user c) ∧
     method request = POST_method ∧
     clean_name (POST request !! "name") = Some (category_name c)) ∧
  (∀ key value, key ≠ "name" →
     category_create (with_POST request (<[key := value]> (POST request))) w =
     category_create request w).
Proof.
  intros Hrun.
  apply category_create_created in Hrun as (u & name & Hu & Hm & Hname & ->).
  pose proof (next_pk_fresh (Category_objects w)) as Hfresh. simpl.
  repeat split.
  - intros k c Hc. rewrite lookup_insert_ne; [done | congruence].
  - by exists (next_pk (Category_objects w)), (mkCategory name u).
  - intros key value Hkey.
    rewrite (category_create_run _ u), (category_create_run request u) by done.
    simpl. by rewrite lookup_insert_ne.
Qed.

(** X16. The category a user creates is among the categories the list view
    shows to that user and is accepted by the task form of that user;
    the task form of any other user rejects its key. *)
Theorem created_category_selectable (request : HttpRequest) (u : Z)
    (w w' : World) :
  request_user request = Some u →
  category_create request w = (inr (redirect "task-list"), w') →
  ∃ k c,
    Category_objects w !! k = None ∧
    category_user c = u ∧
    Category_filter_user (Category_objects w') u !! k = Some c ∧
    (∀ s, to_pk s = Some k →
       clean_category (TaskForm_category_queryset (Some u) (Category_objects w'))
                      (Some s) = Some (Some k) ∧
       ∀ v, v ≠ u →
         clean_category
           (TaskForm_category_queryset (Some v) (Category_objects w'))
           (Some s) = None).
Proof.
  intros Hu Hrun.
  apply category_create_created in Hrun as (u' & name & Hu' & Hm & Hname & ->).
  assert (u' = u) as -> by congruence.
  exists (next_pk (Category_objects w)), (mkCategory name u). simpl.
  assert (Hown : Category_filter_user
                   (<[next_pk (Category_objects w) := mkCategory name u]>
                      (Category_objects w)) u
                 !! next_pk (Category_objects w) = Some (mkCategory name u)).
  { unfold Category_filter_user. apply map_lookup_filter_Some.
    by rewrite lookup_insert_eq. }
  split; [apply next_pk_fresh |]. split; [done |]. split; [done |].
  intros s Hs. split.
  - unfold clean_category. destruct (truthy s) eqn:Htruthy.
    + by rewrite Hs, Hown.
    + apply truthy_false in Htruthy as ->. rewrite to_pk_empty in Hs. done.
  - intros v Hv.
    apply (clean_category_foreign v _ s (next_pk (Category_objects w))
             (mkCategory name u)); [done | apply lookup_insert_eq | done].
Qed.

(** ** Tasks and their categories *)

Lemma constructed_category u objects data t k :
  is_valid (TaskForm_bind (Some u) objects data) = true →
  category (construct_instance (TaskForm_bind (Some u) objects data) t) = Some k →
  ∃ c, objects !! k = Some c ∧ category_user c = u.
Proof.
  intros Hvalid Hcat.
  destruct (is_valid_fields _ Hvalid) as (a & b & c & d & e & Hform).
  rewrite Hform in Hcat. simpl in Hcat. subst e.
  assert (Hclean : f_category (TaskForm_bind (Some u) objects data) =
                   Some (Some k)) by by rewrite Hform.
  simpl in Hclean. apply clean_category_Some in Hclean as [c' Hc'].
  apply map_lookup_filter_Some in Hc' as [Hc' Hown]. by exists c'.
Qed.

(** X17. If every stored task with a category refers to a stored category of
    its own owner, this is so again after any of the writing views,
    whatever the request. *)
Theorem category_of_owner_preserved (request : HttpRequest) (pk : Z) (w : World) :
  category_of_owner w →
  category_of_owner (TaskCreateView request w).2 ∧
  category_of_owner (TaskUpdateView request pk w).2 ∧
  category_of_owner (TaskDeleteView request pk w).2 ∧
  category_of_owner (toggle_task_completion request pk w).2 ∧
  category_of_owner (category_create request w).2.
Proof.
  intros Hinv. destruct (request_user request) as [u|] eqn:Hu.
  - rewrite (TaskCreateView_run request u), (TaskUpdateView_run request u),
      (TaskDeleteView_run request u), (toggle_run request u),
      (category_create_run request u) by done.
    split; [| split; [| split; [| split]]].
    + simpl. destruct (is_valid _) eqn:Hvalid; [| done].
      intros pk' t' k. simpl. intros Ht' Hk.
      apply lookup_insert_Some in Ht' as [[_ <-] | [_ Ht']];
        [| by apply (Hinv pk')].
      by apply (constructed_category u _ (POST request) (new_instance u)).
    + destruct (Task_objects w !! pk) as [t|] eqn:Ht; [| done].
      case_bool_decide as Hown; [| done]. simpl.
      destruct (is_valid _) eqn:Hvalid; [| done].
      intros pk' t' k. simpl. intros Ht' Hk.
      apply lookup_insert_Some in Ht' as [[_ <-] | [_ Ht']];
        [| by apply (Hinv pk')].
      rewrite construct_instance_user, Hown.
      by apply (constructed_category u _ (POST request) t).
    + destruct (Task_objects w !! pk) as [t|] eqn:Ht; [| done].
      case_bool_decide as Hown; [| done].
      intros pk' t' k. simpl. intros Ht' Hk.
      apply lookup_delete_Some in Ht' as [_ Ht']. by apply (Hinv pk').
    + destruct (Task_objects w !! pk) as [t|] eqn:Ht; [| done].
      case_bool_decide as Hown; [| done].
      intros pk' t' k. simpl. intros Ht' Hk.
      apply lookup_insert_Some in Ht' as [[_ <-] | [_ Ht']];
        [| by apply (Hinv pk')].
      by apply (Hinv pk t).
    + destruct (method request); [done |].
      destruct (clean_name _) as [name|]; [| done].
      intros pk' t' k. simpl. intros Ht' Hk.
      destruct (Hinv pk' t' k Ht' Hk) as (c & Hc & Hown).
      exists c. split; [| done]. rewrite lookup_insert_ne; [done |].
      intros Heq. pose proof (next_pk_fresh (Category_objects w)). congruence.
  - pose proof (anonymous_redirected_all request pk w Hu)
      as (_ & _ & _ & -> & -> & -> & -> & ->). done.
Qed.

(** ** The profile *)

Lemma profile_run request u w :
  request_user request = Some u →
  profile request w =
    (inr (render "registration/profile.html"
            (ctx_profile
               (Z.of_nat (size (objects_filter_user (Task_objects w) u)))
               (Z.of_nat (size (filter_completed true
                                  (objects_filter_user (Task_objects w) u))))
               (Z.of_nat (size (objects_filter_user (Task_objects w) u)) -
                Z.of_nat (size (filter_completed true
                                  (objects_filter_user (Task_objects w) u)))))),
     w).
Proof. intros Hu. unfold profile. run_view. by rewrite Hu. Qed.

(** X18. The counts of the profile are the sizes of the lists the list view
    gives the same user: the total is the size of the list without
    parameters, the completed count the size of the list with status
    "completed", the pending count the size of the list with status
    "pending". *)
Theorem profile_counts_the_lists (request : HttpRequest) (u : Z) (w : World) :
  request_user request = Some u →
  ∃ everything done_ pending_,
    get_queryset (Task_objects w) u ∅ = inr everything ∧
    get_queryset (Task_objects w) u {["status" := "completed"]} = inr done_ ∧
    get_queryset (Task_objects w) u {["status" := "pending"]} = inr pending_ ∧
    profile request w =
      (inr (render "registration/profile.html"
              (ctx_profile (Z.of_nat (size everything))
                           (Z.of_nat (size done_))
                           (Z.of_nat (size pending_)))), w).
Proof.
  intros Hu.
  exists (objects_filter_user (Task_objects w) u),
         (filter_completed true (objects_filter_user (Task_objects w) u)),
         (filter_completed false (objects_filter_user (Task_objects w) u)).
  split; [done |]. split; [| split].
  - rewrite get_queryset_status.
    rewrite lookup_singleton_ne by done. rewrite lookup_singleton_eq.
    unfold owner_and_category. repeat case_decide; simplify_eq; done.
  - rewrite get_queryset_status.
    rewrite lookup_singleton_ne by done. rewrite lookup_singleton_eq.
    unfold owner_and_category. repeat case_decide; simplify_eq; done.
  - rewrite (profile_run request u) by done. do 3 f_equal.
    pose proof (size_filter_completed (objects_filter_user (Task_objects w) u)).
    f_equal. lia.
Qed.

Lemma size_filter_completed_toggle (queryset : gmap Z Task) pk t :
  queryset !! pk = Some t →
  size (<[pk := set_completed (negb (completed t)) t]> queryset) = size queryset ∧
  Z.of_nat (size (filter_completed true
              (<[pk := set_completed (negb (completed t)) t]> queryset))) =
  Z.of_nat (size (filter_completed true queryset)) +
  (if completed t then -1 else 1).
Proof.
  intros Ht. split; [by apply map_size_insert_Some |].
  unfold filter_completed. destruct (completed t) eqn:Hc; simpl.
  - rewrite map_filter_insert_False by (simpl; done).
    rewrite map_filter_delete.
    assert (Hin : filter (λ kt, completed kt.2 = true) queryset !! pk = Some t)
      by by apply map_lookup_filter_Some.
    rewrite map_size_delete_Some by by eexists.
    assert (size (filter (λ kt, completed kt.2 = true) queryset) ≠ 0%nat);
      [| lia].
    intros Hsize. apply map_size_empty_iff in Hsize.
    rewrite Hsize in Hin. by rewrite lookup_empty in Hin.
  - rewrite map_filter_insert_True by (simpl; done).
    rewrite map_size_insert_None; [lia |].
    apply eq_None_not_Some. intros [t' Ht'].
    apply map_lookup_filter_Some in Ht' as [Ht' Hc']. simpl in Hc'. congruence.
Qed.

(** X19. Toggling a task of the user moves one task between the two counts
    of the profile: the total stays, and the completed count goes up by
    one when the task was pending and down by one when it was
    completed; the pending count moves the other way. *)
Theorem toggle_moves_one_count (request : HttpRequest) (u pk : Z) (t : Task)
    (w : World) (total_tasks completed_tasks pending_tasks : Z) :
  request_user request = Some u →
  Task_objects w !! pk = Some t →
  user t = u →
  profile request w =
    (inr (render "registration/profile.html"
            (ctx_profile total_tasks completed_tasks pending_tasks)), w) →
  (profile request (toggle_task_completion request pk w).2).1 =
    inr (render "registration/profile.html"
           (ctx_profile total_tasks
              (completed_tasks + (if completed t then -1 else 1))
              (pending_tasks - (if completed t then -1 else 1)))).
Proof.
  intros Hu Ht Hown.
  rewrite (profile_run request u w), (profile_run request u) by done.
  rewrite (toggle_found request u pk t w) by done. simpl.
  intros Hbefore. simplify_eq.
  assert (Hin : objects_filter_user (Task_objects w) (user t) !! pk = Some t)
    by by apply lookup_objects_filter_user.
  assert (Hins : objects_filter_user
                   (<[pk := set_completed (negb (completed t)) t]>
                      (Task_objects w)) (user t) =
                 <[pk := set_completed (negb (completed t)) t]>
                   (objects_filter_user (Task_objects w) (user t))).
  { unfold objects_filter_user. by rewrite map_filter_insert_True. }
  rewrite Hins.
  destruct (size_filter_completed_toggle _ pk t Hin) as [-> ->].
  do 3 f_equal. lia.
Qed.

End MoreProperties.

(** * The further properties on the sample state *)

Lemma get_queryset_conjunction_witness :
  get_queryset (Task_objects sample_world) alice work_pending_params =
    inr (<[1 := report]> ∅) ∧
  work_pending_params !! "status" = Some "pending" ∧
  user report = alice ∧
  completed report = false.
Proof.
  assert (Hq : get_queryset (Task_objects sample_world) alice
                 work_pending_params = inr (<[1 := report]> ∅))
    by (vm_compute; reflexivity).
  assert (Hs : work_pending_params !! "status" = Some "pending")
    by (vm_compute; reflexivity).
  pose proof (proj1 (get_queryset_conjunction (Task_objects sample_world) alice
                       work_pending_params _ 1 report Hq)
                    (lookup_insert_eq _ _ _)) as (_ & Hu & _ & _ & Hp).
  exact (conj Hq (conj Hs (conj Hu (Hp Hs)))).
Defined.

Lemma TaskListView_raises_witness :
  request_user bad_category_request = Some alice ∧
  GET bad_category_request !! "category" = Some "work" ∧
  to_pk "work" = None ∧
  TaskListView bad_category_request sample_world = (inl ValueError, sample_world).
Proof.
  assert (Hu : request_user bad_category_request = Some alice) by reflexivity.
  assert (Hc : GET bad_category_request !! "category" = Some "work")
    by (vm_compute; reflexivity).
  assert (Hk : to_pk "work" = None) by reflexivity.
  assert (Hne : "work" ≠ "") by discriminate.
  exact (conj Hu (conj Hc (conj Hk
    (proj2 (TaskListView_raises bad_category_request alice sample_world
              sample_world ValueError Hu)
       (conj eq_refl (conj eq_refl
          (ex_intro _ "work" (conj Hc (conj Hne Hk))))))))).
Defined.

Lemma TaskListView_categories_witness :
  request_user (plain_request alice) = Some alice ∧
  TaskListView (plain_request alice) sample_world =
    (inr (render "todo_app/task_list.html"
            (ctx_task_list (<[1 := report]> (<[2 := groceries]> ∅))
                           (<[1 := mkCategory "Work" alice]> ∅))),
     sample_world) ∧
  ∀ k c, (<[1 := mkCategory "Work" alice]> ∅ : gmap Z Category) !! k = Some c ↔
         Category_objects sample_world !! k = Some c ∧ category_user c = alice.
Proof.
  assert (Hu : request_user (plain_request alice) = Some alice) by reflexivity.
  assert (Hrun : TaskListView (plain_request alice) sample_world =
    (inr (render "todo_app/task_list.html"
            (ctx_task_list (<[1 := report]> (<[2 := groceries]> ∅))
                           (<[1 := mkCategory "Work" alice]> ∅))),
     sample_world)) by (vm_compute; reflexivity).
  exact (conj Hu (conj Hrun
    (TaskListView_categories (plain_request alice) alice sample_world
       sample_world _ _ _ Hu Hrun))).
Defined.

Lemma reading_views_keep_state_witness :
  method (request_with GET_method alice [] []) = GET_method ∧
  (category_create (request_with GET_method alice [] []) sample_world).2 =
    sample_world.
Proof.
  assert (Hm : method (request_with GET_method alice [] []) = GET_method)
    by reflexivity.
  pose proof (reading_views_keep_state (request_with GET_method alice [] []) 1
                sample_world) as (_ & _ & _ & Hcat).
  exact (conj Hm (Hcat Hm)).
Defined.

Lemma anonymous_redirected_witness :
  request_user anonymous_request = None ∧
  toggle_task_completion anonymous_request 1 sample_world =
    (inr (redirect "login"), sample_world) ∧
  category_create anonymous_request sample_world =
    (inr (redirect "login"), sample_world).
Proof.
  assert (Hu : request_user anonymous_request = None) by reflexivity.
  pose proof (anonymous_redirected anonymous_request 1 sample_world Hu)
    as (_ & _ & _ & _ & _ & _ & Htoggle & Hcat).
  exact (conj Hu (conj Htoggle Hcat)).
Defined.


Lemma foreign_tasks_untouched_witness :
  Task_objects sample_world !! 3 = Some laundry ∧
  request_user retitle_request ≠ Some (user laundry) ∧
  Task_objects (TaskUpdateView retitle_request 3 sample_world).2 !! 3 =
    Some laundry ∧
  Task_objects (TaskDeleteView retitle_request 3 sample_world).2 !! 3 =
    Some laundry ∧
  Task_objects (toggle_task_completion retitle_request 3 sample_world).2 !! 3 =
    Some laundry.
Proof.
  assert (Ht : Task_objects sample_world !! 3 = Some laundry) by reflexivity.
  assert (Hne : request_user retitle_request ≠ Some (user laundry))
    by discriminate.
  pose proof (foreign_tasks_untouched retitle_request 3 3 laundry sample_world
                Ht Hne) as (_ & Hupdate & Hdelete & Htoggle & _).
  exact (conj Ht (conj Hne (conj Hupdate (conj Hdelete Htoggle)))).
Defined.

Lemma update_keeps_owner_and_flag_witness :
  Task_objects sample_world !! 1 = Some report ∧
  ∃ t', Task_objects (TaskUpdateView retitle_request 1 sample_world).2 !! 1 =
          Some t' ∧
        user t' = user report ∧ completed t' = completed report.
Proof.
  assert (Ht : Task_objects sample_world !! 1 = Some report) by reflexivity.
  exact (conj Ht
    (proj1 (update_keeps_owner_and_flag retitle_request 1 report sample_world
              Ht))).
Defined.

Lemma update_ignores_other_keys_witness :
  ("completed" ∉ TaskForm_fields) ∧
  TaskUpdateView
    (with_POST retitle_request (<["completed" := "on"]> (POST retitle_request)))
    1 sample_world =
  TaskUpdateView retitle_request 1 sample_world.
Proof.
  assert (Hkey : "completed" ∉ TaskForm_fields).
  { unfold TaskForm_fields. rewrite !not_elem_of_cons.
    repeat split; try discriminate. apply not_elem_of_nil. }
  exact (conj Hkey
    (update_ignores_other_keys retitle_request 1 sample_world "completed" "on"
       Hkey)).
Defined.

Lemma create_adds_one_task_witness :
  TaskCreateView create_with_owner sample_world =
    (inr (redirect "task-list"), called_world) ∧
  size (Task_objects called_world) = S (size (Task_objects sample_world)) ∧
  ∀ pk t, Task_objects sample_world !! pk = Some t →
          Task_objects called_world !! pk = Some t.
Proof.
  assert (Hrun : TaskCreateView create_with_owner sample_world =
                 (inr (redirect "task-list"), called_world))
    by (vm_compute; reflexivity).
  pose proof (create_adds_one_task create_with_owner sample_world called_world
                Hrun) as (Hkept & Hsize & _).
  exact (conj Hrun (conj Hsize Hkept)).
Defined.

Lemma created_task_round_trip_witness :
  request_user create_with_owner = Some bob ∧
  TaskCreateView create_with_owner sample_world =
    (inr (redirect "task-list"), called_world) ∧
  ∃ pk t,
    Task_objects sample_world !! pk = None ∧
    user t = bob ∧
    (∀ request', request_user request' = Some bob →
       TaskDetailView request' pk called_world =
         (inr (render "todo_app/task_detail.html" (ctx_object pk t)),
          called_world) ∧
       ∃ queryset,
         get_queryset (Task_objects called_world) bob ∅ = inr queryset ∧
         queryset !! pk = Some t) ∧
    (∀ request' v, request_user request' = Some v → v ≠ bob →
       TaskDetailView request' pk called_world =
         (inl PermissionDenied, called_world) ∧
       toggle_task_completion request' pk called_world =
         (inl Http404, called_world)).
Proof.
  assert (Hu : request_user create_with_owner = Some bob) by reflexivity.
  assert (Hrun : TaskCreateView create_with_owner sample_world =
                 (inr (redirect "task-list"), called_world))
    by (vm_compute; reflexivity).
  exact (conj Hu (conj Hrun
    (created_task_round_trip create_with_owner bob sample_world called_world
       Hu Hrun))).
Defined.

Lemma deleted_task_is_gone_witness :
  request_user (plain_request alice) = Some alice ∧
  Task_objects sample_world !! 1 = Some report ∧
  user report = alice ∧
  ∃ w',
    TaskDeleteView (plain_request alice) 1 sample_world =
      (inr (redirect "task-list"), w') ∧
    Task_objects w' !! 1 = None ∧
    S (size (Task_objects w')) = size (Task_objects sample_world).
Proof.
  assert (Hu : request_user (plain_request alice) = Some alice) by reflexivity.
  assert (Ht : Task_objects sample_world !! 1 = Some report) by reflexivity.
  assert (Hown : user report = alice) by reflexivity.
  destruct (deleted_task_is_gone (plain_request alice) alice 1 report
              sample_world Hu Ht Hown)
    as (w' & Hrun & Hgone & _ & Hsize & _).
  exact (conj Hu (conj Ht (conj Hown
    (ex_intro _ w' (conj Hrun (conj Hgone Hsize)))))).
Defined.

Lemma category_create_stamps_owner_witness :
  category_create errands_request sample_world =
    (inr (redirect "task-list"), errands_world) ∧
  POST errands_request !! "user" = Some "2" ∧
  Task_objects errands_world = Task_objects sample_world ∧
  ∃ k c,
    Category_objects sample_world !! k = None ∧
    Category_objects errands_world = <[k := c]> (Category_objects sample_world) ∧
    request_user errands_request = Some (category_user c) ∧
    method errands_request = POST_method ∧
    clean_name (POST errands_request !! "name") = Some (category_name c).
Proof.
  assert (Hrun : category_create errands_request sample_world =
                 (inr (redirect "task-list"), errands_world))
    by (vm_compute; reflexivity).
  assert (Hpost : POST errands_request !! "user" = Some "2")
    by (vm_compute; reflexivity).
  pose proof (category_create_stamps_owner errands_request sample_world
                errands_world Hrun) as (Htasks & _ & Hnew & _).
  exact (conj Hrun (conj Hpost (conj Htasks Hnew))).
Defined.

Lemma created_category_selectable_witness :
  request_user errands_request = Some alice ∧
  category_create errands_request sample_world =
    (inr (redirect "task-list"), errands_world) ∧
  ∃ k c,
    Category_objects sample_world !! k = None ∧
    category_user c = alice ∧
    Category_filter_user (Category_objects errands_world) alice !! k = Some c ∧
    (∀ s, to_pk s = Some k →
       clean_category
         (TaskForm_category_queryset (Some alice) (Category_objects errands_world))
         (Some s) = Some (Some k) ∧
       ∀ v, v ≠ alice →
         clean_category
           (TaskForm_category_queryset (Some v) (Category_objects errands_world))
           (Some s) = None).
Proof.
  assert (Hu : request_user errands_request = Some alice) by reflexivity.
  assert (Hrun : category_create errands_request sample_world =
                 (inr (redirect "task-list"), errands_world))
    by (vm_compute; reflexivity).
  exact (conj Hu (conj Hrun
    (created_category_selectable errands_request alice sample_world
       errands_world Hu Hrun))).
Defined.

Lemma category_of_owner_preserved_witness :
  category_of_owner sample_world ∧
  category_of_owner (TaskUpdateView retitle_request 1 sample_world).2 ∧
  category_of_owner (TaskCreateView create_with_owner sample_world).2.
Proof.
  assert (Hinv : category_of_owner sample_world).
  { intros pk t k Ht Hk. unfold sample_world in Ht. simpl in Ht.
    apply lookup_insert_Some in Ht as [[_ <-] | [_ Ht]].
    { injection Hk as <-. by exists (mkCategory "Work" alice). }
    apply lookup_insert_Some in Ht as [[_ <-] | [_ Ht]]; [discriminate Hk |].
    apply lookup_insert_Some in Ht as [[_ <-] | [_ Ht]].
    { injection Hk as <-. by exists (mkCategory "Home" bob). }
    by rewrite lookup_empty in Ht. }
  pose proof (category_of_owner_preserved retitle_request 1 sample_world Hinv)
    as (_ & Hupdate & _).
  pose proof (category_of_owner_preserved create_with_owner 1 sample_world Hinv)
    as (Hcreate & _).
  exact (conj Hinv (conj Hupdate Hcreate)).
Defined.

Lemma profile_counts_the_lists_witness :
  request_user (plain_request alice) = Some alice ∧
  ∃ everything done_ pending_,
    get_queryset (Task_objects sample_world) alice ∅ = inr everything ∧
    get_queryset (Task_objects sample_world) alice
      {["status" := "completed"]} = inr done_ ∧
    get_queryset (Task_objects sample_world) alice
      {["status" := "pending"]} = inr pending_ ∧
    profile (plain_request alice) sample_world =
      (inr (render "registration/profile.html"
              (ctx_profile (Z.of_nat (size everything))
                           (Z.of_nat (size done_))
                           (Z.of_nat (size pending_)))), sample_world).
Proof.
  assert (Hu : request_user (plain_request alice) = Some alice) by reflexivity.
  exact (conj Hu
    (profile_counts_the_lists (plain_request alice) alice sample_world Hu)).
Defined.

Lemma toggle_moves_one_count_witness :
  request_user (plain_request alice) = Some alice ∧
  Task_objects sample_world !! 1 = Some report ∧
  user report = alice ∧
  profile (plain_request alice) sample_world =
    (inr (render "registration/profile.html" (ctx_profile 2 1 1)),
     sample_world) ∧
  (profile (plain_request alice)
     (toggle_task_completion (plain_request alice) 1 sample_world).2).1 =
    inr (render "registration/profile.html" (ctx_profile 2 2 0)).
Proof.
  assert (Hu : request_user (plain_request alice) = Some alice) by reflexivity.
  assert (Ht : Task_objects sample_world !! 1 = Some report) by reflexivity.
  assert (Hown : user report = alice) by reflexivity.
  assert (Hprofile : profile (plain_request alice) sample_world =
    (inr (render "registration/profile.html" (ctx_profile 2 1 1)),
     sample_world)) by (vm_compute; reflexivity).
  exact (conj Hu (conj Ht (conj Hown (conj Hprofile
    (toggle_moves_one_count (plain_request alice) alice 1 report sample_world
       2 1 1 Hu Ht Hown Hprofile))))).
Defined.
